(** * net-ping: the probe [send_ping] and the session loop of [main]

    A shallow embedding of [src/main.py].  Python floats are the kernel's
    binary64 floats, Python ints are [Z], the records handed to [logging]
    are a list threaded through a small monad together with the exception
    a call may raise. *)

From Stdlib Require Import ZArith List String Bool Lia.
From Stdlib Require Import Floats DecimalString.
From Stdlib Require Uint63.
Import ListNotations.

Local Open Scope Z_scope.

(** ** Python numbers *)

Module PyNum.

(** [float(n)] for a Python int: the nearest binary64, ties to even.
    (Python raises OverflowError from [2^1024] on, a value the counter of
    [main], which grows by one per probe, never holds in a run that ends.) *)
Definition of_int (n : Z) : float :=
  SF2Prim (binary_normalize prec emax n 0 false).

(** [0 <= x] as Python evaluates it on floats: false on nan, true on -0.0. *)
Definition nonneg (x : float) : Prop := (0 <=? x)%float = true.

(** [x < 0] on floats. *)
Definition negative (x : float) : Prop := (x <? 0)%float = true.

(** [str(n)] for an int. *)
Definition str (n : Z) : string := NilZero.string_of_int (Z.to_int n).

(** The integer nearest to [m * 2^e * 100], ties to even: the digits that
    the format [.2f] prints for the finite float of mantissa [m] and
    exponent [e]. *)
Definition hundredths (m : positive) (e : Z) : Z :=
  if 0 <=? e then Zpos m * 2 ^ e * 100
  else
    let d := 2 ^ (- e) in
    let n := Zpos m * 100 in
    let q := n / d in
    match 2 * (n mod d) ?= d with
    | Lt => q
    | Gt => q + 1
    | Eq => if Z.even q then q else q + 1
    end.

Definition two_digits (n : Z) : string :=
  if n <? 10 then ("0" ++ str n)%string else str n.

(** [f'{x:.2f}']. *)
Definition format_2f (x : float) : string :=
  match Prim2SF x with
  | S754_nan => "nan"
  | S754_infinity s => if s then "-inf" else "inf"
  | S754_zero s => if s then "-0.00" else "0.00"
  | S754_finite s m e =>
      let h := hundredths m e in
      ((if s then "-" else "") ++ str (h / 100) ++ "." ++ two_digits (h mod 100))%string
  end.

End PyNum.

(** ** The records handed to [logging] *)

Module logging.

Inductive level := DEBUG | INFO | WARNING | ERROR.

(** [logging.DEBUG], [logging.INFO], ... as numbers. *)
Definition levelno (l : level) : Z :=
  match l with DEBUG => 10 | INFO => 20 | WARNING => 30 | ERROR => 40 end.

(** Line 8: [logging.basicConfig(level=logging.INFO, ...)].  The second
    [basicConfig] of [main] (line 90) finds the root logger configured and
    changes nothing. *)
Definition root_level : level := INFO.

Definition isEnabledFor (l : level) : bool := levelno root_level <=? levelno l.

(** One constructor per f-string of the source, with the values it
    interpolates. *)
Inductive message :=
| Resolved (host target_ip : string)
| FailedToResolve (host : string)
| TimedOut (host : string)
| ErrorOccurred (e : string)
| Starting (host : string) (count timeout : Z)
| Sending (n : Z) (host : string)
| ResponseTime (n : Z) (response_time : float)
| NoResponse (n : Z)
| StatisticsFor (host : string)
| Packets (sent received lost : Z)
| AverageResponseTime (average_time : float)
| NoResponsesReceived (host : string).

(** The text of the f-string. *)
Definition getMessage (m : message) : string :=
  match m with
  | Resolved host target_ip => "Resolved " ++ host ++ " to " ++ target_ip
  | FailedToResolve host => "Failed to resolve host: " ++ host
  | TimedOut host => "Ping to " ++ host ++ " timed out."
  | ErrorOccurred e => "An error occurred during ping: " ++ e
  | Starting host count timeout =>
      "Starting ping to " ++ host ++ " with " ++ PyNum.str count
        ++ " requests and " ++ PyNum.str timeout ++ "s timeout."
  | Sending n host => "Sending ping " ++ PyNum.str n ++ " to " ++ host ++ "..."
  | ResponseTime n response_time =>
      "Ping " ++ PyNum.str n ++ ": Response time = "
        ++ PyNum.format_2f response_time ++ " ms"
  | NoResponse n => "Ping " ++ PyNum.str n ++ ": No response."
  | StatisticsFor host => "Ping statistics for " ++ host ++ ":"
  | Packets sent received lost =>
      "  Packets: Sent = " ++ PyNum.str sent ++ ", Received = "
        ++ PyNum.str received ++ ", Lost = " ++ PyNum.str lost
  | AverageResponseTime average_time =>
      "  Average response time = " ++ PyNum.format_2f average_time ++ " ms"
  | NoResponsesReceived host => "No responses received from " ++ host ++ "."
  end%string.

(** A record as the handler formats it, [asctime] left out. *)
Record LogRecord := { levelname : level; msg : message }.

End logging.
Import logging.

(** ** Exceptions and the monad of the embedding *)

(** The exceptions of a run, each with its [str]: the two that [send_ping]
    names in an [except] clause, the one a division by zero raises, and
    [Exception] for an instance of any other subclass of [Exception]. *)
Inductive exn :=
| socket_gaierror (e : string)
| socket_timeout (e : string)
| ZeroDivisionError (e : string)
| Exception (e : string).

Definition str_of (x : exn) : string :=
  match x with
  | socket_gaierror e | socket_timeout e | ZeroDivisionError e | Exception e => e
  end.

(** The classes named in an [except] clause. *)
Inductive pyclass := class_gaierror | class_timeout | class_Exception.

Definition isinstance (e : exn) (c : pyclass) : bool :=
  match c, e with
  | class_gaierror, socket_gaierror _ => true
  | class_timeout, socket_timeout _ => true
  | class_Exception, _ => true
  | _, _ => false
  end.

(** A computation: the records it logged, in order, and the exception it
    raised or the value it returned. *)
Definition M (A : Type) : Type := list LogRecord * (exn + A).

Definition ret {A} (a : A) : M A := ([], inr a).

Definition raise {A} (e : exn) : M A := ([], inl e).

Definition bind {A B} (m : M A) (f : A -> M B) : M B :=
  match m with
  | (l, inl e) => (l, inl e)
  | (l, inr a) => let (l', r) := f a in (l ++ l', r)
  end.

Declare Scope py_scope.
Delimit Scope py_scope with py.
Notation "x <- c ;; k" := (bind c (fun x => k))
  (at level 61, c at next level, right associativity) : py_scope.
Notation "c ;; k" := (bind c (fun _ => k))
  (at level 61, right associativity) : py_scope.
Local Open Scope py_scope.

(** The result of a library call, as the environment decides it. *)
Definition call {A} (r : exn + A) : M A := ([], r).

(** [logging.log(l, m)]: dropped below the root logger's level. *)
Definition log_at (l : level) (m : message) : M unit :=
  (if isEnabledFor l then [{| levelname := l; msg := m |}] else [], inr tt).

(** [try: body except c1: h1 except c2: h2 ...]: the first clause whose class
    the exception is an instance of handles it; with no such clause it
    propagates. *)
Fixpoint dispatch {A} (handlers : list (pyclass * (exn -> M A))) (e : exn) : M A :=
  match handlers with
  | [] => raise e
  | (c, h) :: rest => if isinstance e c then h e else dispatch rest e
  end.

Definition try_except {A} (body : M A) (handlers : list (pyclass * (exn -> M A))) : M A :=
  match body with
  | (l, inr a) => (l, inr a)
  | (l, inl e) => let (l', r) := dispatch handlers e in (l ++ l', r)
  end.

(** What the calls of one execution of [send_ping] do: the outcome of each
    socket call and the two readings of [time.time()]. *)
Record attempt := {
  gethostbyname : exn + string;
  socket_socket : exn + unit;
  settimeout : exn + unit;
  time_before_send : float;
  sendto : exn + unit;
  recvfrom : exn + unit;
  time_after_recv : float
}.

(** [with socket.socket(...) as sock: body]: the socket is closed on every
    way out of the block and an exception of the body goes on. *)
Definition with_socket {A} (w : attempt) (body : M A) : M A :=
  call (socket_socket w) ;; body.

(** ** [send_ping] (lines 45-80) *)

Definition send_ping (host : string) (timeout : Z) (w : attempt) : M (option float) :=
  try_except
    (target_ip <- call (gethostbyname w) ;;
     log_at DEBUG (Resolved host target_ip) ;;
     times <- with_socket w
       (call (settimeout w) ;;
        let start_time := time_before_send w in
        call (sendto w) ;;
        call (recvfrom w) ;;
        let end_time := time_after_recv w in
        ret (start_time, end_time)) ;;
     let '(start_time, end_time) := times in
     let response_time := ((end_time - start_time) * 1000)%float in
     ret (Some response_time))
    [ (class_gaierror, fun _ => log_at ERROR (FailedToResolve host) ;; ret None);
      (class_timeout, fun _ => log_at WARNING (TimedOut host) ;; ret None);
      (class_Exception, fun e => log_at ERROR (ErrorOccurred (str_of e)) ;; ret None) ].

(** ** [main] (lines 82-114) *)

(** The namespace [parser.parse_args()] returns. *)
Record Namespace := {
  host : string;
  timeout : Z;
  count : Z;
  log : option string
}.

(** The two accumulators of the loop.  [total_time] starts as the int [0];
    [0 + x] on a float [x] is [0.0 + x], so the float zero stands for it. *)
Record stats := {
  successful_pings : Z;
  total_time : float
}.

Definition initial : stats := {| successful_pings := 0; total_time := 0%float |}.

(** [range(n)] *)
Definition range (n : Z) : list Z := map Z.of_nat (seq 0 (Z.to_nat n)).

(** [for i in l: s = body(i, s)] *)
Fixpoint for_each (l : list Z) (body : Z -> stats -> M stats) (s : stats) : M stats :=
  match l with
  | [] => ret s
  | i :: l' => s' <- body i s ;; for_each l' body s'
  end.

(** [x / n] for a float [x] and an int [n]. *)
Definition truediv (x : float) (n : Z) : M float :=
  if n =? 0 then raise (ZeroDivisionError "float division by zero")
  else ret (x / PyNum.of_int n)%float.

(** The body of the loop (lines 98-106); [net i] is what the network does
    at the probe of iteration [i]. *)
Definition iteration (args : Namespace) (net : Z -> attempt) (i : Z) (s : stats) : M stats :=
  log_at INFO (Sending (i + 1) (host args)) ;;
  response_time <- send_ping (host args) (timeout args) (net i) ;;
  match response_time with
  | Some response_time =>
      log_at INFO (ResponseTime (i + 1) response_time) ;;
      ret {| successful_pings := successful_pings s + 1;
             total_time := (total_time s + response_time)%float |}
  | None =>
      log_at INFO (NoResponse (i + 1)) ;;
      ret s
  end.

(** Lines 97-106. *)
Definition probe_loop (args : Namespace) (net : Z -> attempt) : M stats :=
  for_each (range (count args)) (iteration args net) initial.

(** Lines 108-114, over the division [divide] of line 109. *)
Definition summary_by (divide : float -> Z -> M float)
    (args : Namespace) (s : stats) : M unit :=
  if 0 <? successful_pings s then
    average_time <- divide (total_time s) (successful_pings s) ;;
    log_at INFO (StatisticsFor (host args)) ;;
    log_at INFO (Packets (count args) (successful_pings s)
                         (count args - successful_pings s)) ;;
    log_at INFO (AverageResponseTime average_time)
  else
    log_at INFO (NoResponsesReceived (host args)).

Definition summary : Namespace -> stats -> M unit := summary_by truediv.

Definition main (args : Namespace) (net : Z -> attempt) : M unit :=
  log_at INFO (Starting (host args) (count args) (timeout args)) ;;
  s <- probe_loop args net ;;
  summary args s.

(** The namespace with another [--count]. *)
Definition with_count (args : Namespace) (n : Z) : Namespace :=
  {| host := host args; timeout := timeout args; count := n; log := log args |}.

(** ** Reading a run *)

(** The records a computation logged and what it ended with. *)
Definition records {A} (m : M A) : list LogRecord := fst m.
Definition outcome {A} (m : M A) : exn + A := snd m.

(** The accumulators when the loop is left ([initial] if it raised). *)
Definition final_stats (args : Namespace) (net : Z -> attempt) : stats :=
  match outcome (probe_loop args net) with
  | inr s => s
  | inl _ => initial
  end.

(** The accumulators after the first [k] iterations. *)
Definition stats_after (args : Namespace) (net : Z -> attempt) (k : nat) : stats :=
  match outcome (for_each (firstn k (range (count args))) (iteration args net) initial) with
  | inr s => s
  | inl _ => initial
  end.

(** The records of the summary of a run. *)
Definition summary_records (args : Namespace) (net : Z -> attempt) : list LogRecord :=
  records (summary args (final_stats args net)).

(** The probe of iteration [i] succeeded. *)
Definition succeeded (args : Namespace) (net : Z -> attempt) (i : Z) : bool :=
  match outcome (send_ping (host args) (timeout args) (net i)) with
  | inr (Some _) => true
  | _ => false
  end.

(** The number of probes of the run that succeeded. *)
Definition successes (args : Namespace) (net : Z -> attempt) : Z :=
  Z.of_nat (List.length (filter (succeeded args net) (range (count args)))).

(** The per-attempt outcome records (lines 102 and 106). *)
Definition is_outcome (r : LogRecord) : bool :=
  match msg r with
  | ResponseTime _ _ | NoResponse _ => true
  | _ => false
  end.

Definition is_sending (r : LogRecord) : bool :=
  match msg r with
  | Sending _ _ => true
  | _ => false
  end.

(** The attempt number a per-attempt record prints. *)
Definition attempt_no (r : LogRecord) : Z :=
  match msg r with
  | Sending n _ | ResponseTime n _ | NoResponse n => n
  | _ => 0
  end.

(** A record of the list reports these packet counts (line 111). *)
Definition reports_packets (l : list LogRecord) (sent received lost : Z) : Prop :=
  In {| levelname := INFO; msg := Packets sent received lost |} l.

(** A record of the list reports an average (line 112). *)
Definition reports_average (l : list LogRecord) (average_time : float) : Prop :=
  In {| levelname := INFO; msg := AverageResponseTime average_time |} l.

Definition info (m : message) : LogRecord := {| levelname := INFO; msg := m |}.

(** ** The outcome of a probe, as the specification names it *)

(** The tagged variant of the specification. *)
Inductive ProbeOutcome :=
| Success (elapsedMillis : float)
| ResolutionFailure
| Timeout
| OtherError (message : string).

(** The outcome read off what [send_ping] returned and logged: a float is a
    success, [None] comes with the one record that names the failure. *)
Definition classify (m : M (option float)) : option ProbeOutcome :=
  match m with
  | ([], inr (Some response_time)) => Some (Success response_time)
  | ([ {| levelname := ERROR; msg := FailedToResolve _ |} ], inr None) =>
      Some ResolutionFailure
  | ([ {| levelname := WARNING; msg := TimedOut _ |} ], inr None) => Some Timeout
  | ([ {| levelname := ERROR; msg := ErrorOccurred e |} ], inr None) =>
      Some (OtherError e)
  | _ => None
  end.

(** The outcomes that are not a success. *)
Definition is_failure (o : ProbeOutcome) : bool :=
  match o with
  | Success _ => false
  | ResolutionFailure | Timeout | OtherError _ => true
  end.

(** The outcome of the probe of iteration [i]. *)
Definition probe (args : Namespace) (net : Z -> attempt) (i : Z) : option ProbeOutcome :=
  classify (send_ping (host args) (timeout args) (net i)).

(** The first exception the calls of an attempt raise, in the order
    [send_ping] makes them. *)
Definition first_raised (w : attempt) : option exn :=
  match gethostbyname w, socket_socket w, settimeout w, sendto w, recvfrom w with
  | inl e, _, _, _, _ => Some e
  | inr _, inl e, _, _, _ => Some e
  | inr _, inr _, inl e, _, _ => Some e
  | inr _, inr _, inr _, inl e, _ => Some e
  | inr _, inr _, inr _, inr _, inl e => Some e
  | inr _, inr _, inr _, inr _, inr _ => None
  end.

(** The outcome the specification gives to an exception. *)
Definition failure_kind (e : exn) : ProbeOutcome :=
  match e with
  | socket_gaierror _ => ResolutionFailure
  | socket_timeout _ => Timeout
  | _ => OtherError (str_of e)
  end.

(** The record an [except] clause of [send_ping] logs for an exception. *)
Definition failure_record (host : string) (e : exn) : LogRecord :=
  match e with
  | socket_gaierror _ => {| levelname := ERROR; msg := FailedToResolve host |}
  | socket_timeout _ => {| levelname := WARNING; msg := TimedOut host |}
  | _ => {| levelname := ERROR; msg := ErrorOccurred (str_of e) |}
  end.

(** The elapsed time the clock reports for an attempt, in seconds. *)
Definition elapsed (w : attempt) : float := (time_after_recv w - time_before_send w)%float.

(** ** The loop, iteration by iteration *)

(** The accumulators after iteration [i] entered with [s]. *)
Definition step (args : Namespace) (net : Z -> attempt) (s : stats) (i : Z) : stats :=
  match outcome (send_ping (host args) (timeout args) (net i)) with
  | inr (Some response_time) =>
      {| successful_pings := successful_pings s + 1;
         total_time := (total_time s + response_time)%float |}
  | _ => s
  end.

(** The record that ends iteration [i] (line 102 or 106). *)
Definition outcome_record (args : Namespace) (net : Z -> attempt) (i : Z) : LogRecord :=
  match outcome (send_ping (host args) (timeout args) (net i)) with
  | inr (Some response_time) => info (ResponseTime (i + 1) response_time)
  | _ => info (NoResponse (i + 1))
  end.

(** The records of iteration [i]. *)
Definition iteration_records (args : Namespace) (net : Z -> attempt) (i : Z) : list LogRecord :=
  info (Sending (i + 1) (host args))
    :: records (send_ping (host args) (timeout args) (net i))
    ++ [outcome_record args net i].

(** The invariant of the specification on the accumulators after
    [attempted] iterations. *)
Definition invariant (attempted : Z) (s : stats) : Prop :=
  successful_pings s <= attempted
  /\ PyNum.nonneg (total_time s)
  /\ (successful_pings s = 0 -> total_time s = 0%float).

(** The part of it that holds whatever the clock does. *)
Definition counting_invariant (attempted : Z) (s : stats) : Prop :=
  0 <= successful_pings s <= attempted
  /\ (successful_pings s = 0 -> total_time s = 0%float).

(** The spec floats Python holds to be [< 0]. *)
Definition sf_negative (x : spec_float) : bool :=
  match x with
  | S754_infinity s | S754_finite s _ _ => s
  | _ => false
  end.

(** The spec floats Python holds to be [>= 0]. *)
Definition sf_nonneg (x : spec_float) : bool :=
  match x with
  | S754_zero _ => true
  | S754_infinity s | S754_finite s _ _ => negb s
  | S754_nan => false
  end.

(** ** The configuration of [logging] (lines 8 and 89-90) *)

(** Where the root logger sends its records: [sys.stderr], or a file. *)
Inductive handler :=
| StreamHandler
| FileHandler (filename : string).

Record RootLogger := {
  handlers : list handler;
  effective_level : level
}.

(** The root logger of an interpreter that has just started: no handler,
    level WARNING. *)
Definition fresh_root : RootLogger :=
  {| handlers := []; effective_level := WARNING |}.

(** [logging.basicConfig(filename=f, level=l, format=...)]: nothing when the
    root logger has a handler already; otherwise a handler on the file [f],
    or on [sys.stderr] without one, and the level [l]. *)
Definition basicConfig (filename : option string) (l : level)
    (root : RootLogger) : RootLogger :=
  match handlers root with
  | [] =>
      {| handlers := [match filename with
                      | Some f => FileHandler f
                      | None => StreamHandler
                      end];
         effective_level := l |}
  | _ :: _ => root
  end.

(** Line 8, run when the module is loaded. *)
Definition module_level_config : RootLogger := basicConfig None INFO fresh_root.

(** The truth value of [args.log]: [None] and the empty string are false. *)
Definition truthy (s : option string) : bool :=
  match s with
  | None | Some EmptyString => false
  | Some _ => true
  end.

(** Lines 89-90. *)
Definition configure_log (args : Namespace) (root : RootLogger) : RootLogger :=
  if truthy (log args) then basicConfig (log args) INFO root else root.

(** ** More ways to read a run *)

(** The records of the [except] clauses: a warning or an error. *)
Definition is_problem (r : LogRecord) : bool :=
  match levelname r with
  | WARNING | ERROR => true
  | _ => false
  end.

(** The records of line 102 and those of line 106. *)
Definition is_response (r : LogRecord) : bool :=
  match msg r with
  | ResponseTime _ _ => true
  | _ => false
  end.

Definition is_no_response (r : LogRecord) : bool :=
  match msg r with
  | NoResponse _ => true
  | _ => false
  end.

(** The response time a record of line 102 prints. *)
Definition printed_time (r : LogRecord) : list float :=
  match msg r with
  | ResponseTime _ response_time => [response_time]
  | _ => []
  end.

(** The response time [send_ping] returned at attempt [i], if any. *)
Definition returned (args : Namespace) (net : Z -> attempt) (i : Z) : list float :=
  match outcome (send_ping (host args) (timeout args) (net i)) with
  | inr (Some response_time) => [response_time]
  | _ => []
  end.

(** The response times [send_ping] returned in a run, in the order of the
    attempts. *)
Definition response_times (args : Namespace) (net : Z -> attempt) : list float :=
  flat_map (returned args net) (range (count args)).

(** [sum] as the loop computes it: from [0], left to right. *)
Definition running_sum (l : list float) : float :=
  fold_left PrimFloat.add l 0%float.

(** The records of attempt [i + 1], read off the calls of the attempt. *)
Definition attempt_records (h : string) (w : attempt) (i : Z) : list LogRecord :=
  info (Sending (i + 1) h)
    :: match first_raised w with
       | Some e => [failure_record h e; info (NoResponse (i + 1))]
       | None => [info (ResponseTime (i + 1) (elapsed w * 1000)%float)]
       end.

(** The number of records of a list that pass a test. *)
Definition count_of (f : LogRecord -> bool) (l : list LogRecord) : Z :=
  Z.of_nat (List.length (filter f l)).

(** The spec floats that are a number: a zero or a finite float. *)
Definition sf_finite (x : spec_float) : bool :=
  match x with
  | S754_zero _ | S754_finite _ _ _ => true
  | _ => false
  end.

Definition sf_is_nan (x : spec_float) : bool :=
  match x with
  | S754_nan => true
  | _ => false
  end.

(** The records of the summary (lines 110-114). *)
Definition is_summary (r : LogRecord) : bool :=
  match msg r with
  | StatisticsFor _ | Packets _ _ _ | AverageResponseTime _
  | NoResponsesReceived _ => true
  | _ => false
  end.

(** ** Runs used as examples *)

Definition example_host : string := "example.org".

Definition replied (start_time end_time : float) : attempt :=
  {| gethostbyname := inr "93.184.216.34"%string; socket_socket := inr tt;
     settimeout := inr tt; time_before_send := start_time;
     sendto := inr tt; recvfrom := inr tt; time_after_recv := end_time |}.

Definition timed_out : attempt :=
  {| gethostbyname := inr "93.184.216.34"%string; socket_socket := inr tt;
     settimeout := inr tt; time_before_send := 0%float;
     sendto := inr tt; recvfrom := inl (socket_timeout "timed out");
     time_after_recv := 1%float |}.

Definition unresolved : attempt :=
  {| gethostbyname := inl (socket_gaierror "Name or service not known");
     socket_socket := inr tt;
     settimeout := inr tt; time_before_send := 0%float;
     sendto := inr tt; recvfrom := inr tt;
     time_after_recv := 0%float |}.

Definition refused (e : string) : attempt :=
  {| gethostbyname := inr "93.184.216.34"%string; socket_socket := inr tt;
     settimeout := inr tt; time_before_send := 0%float;
     sendto := inr tt; recvfrom := inl (Exception e);
     time_after_recv := 0%float |}.

Definition script (l : list attempt) (i : Z) : attempt :=
  nth (Z.to_nat i) l timed_out.

Definition session (n : Z) : Namespace :=
  {| host := example_host; timeout := 1; count := n; log := None |}.

(** 0.01 s and 0.02 s, as [time.time()] can return them. *)
Definition ten_ms : float := 0x1.47ae147ae147bp-7%float.
Definition twenty_ms : float := 0x1.47ae147ae147bp-6%float.

(** Success 10.0, Timeout, Success 20.0, OtherError "x". *)
Definition mixed : Z -> attempt :=
  script [replied 0 ten_ms; timed_out; replied 0 twenty_ms; refused "x"].

(** A reply read off a clock that was set back by a second meanwhile. *)
Definition set_back : Z -> attempt := script [replied 2 1].

(** ** The formats on examples *)

Example of_int_2 : PyNum.of_int 2 = 2%float.
Proof. vm_compute. reflexivity. Qed.

Example format_15 : PyNum.format_2f 15%float = "15.00"%string.
Proof. vm_compute. reflexivity. Qed.

Example format_tie_down : PyNum.format_2f 0.125%float = "0.12"%string.
Proof. vm_compute. reflexivity. Qed.

Example format_tie_up : PyNum.format_2f 0.375%float = "0.38"%string.
Proof. vm_compute. reflexivity. Qed.

Example format_neg : PyNum.format_2f (-1000.5)%float = "-1000.50"%string.
Proof. vm_compute. reflexivity. Qed.

(** ** Signs of binary64 sums and products *)

Section FloatSigns.

Lemma SFleb_zero (x : spec_float) : SFleb (S754_zero false) x = sf_nonneg x.
Proof. destruct x as [s|s| |s m e]; try destruct s; reflexivity. Qed.

Lemma nonneg_spec (x : float) : PyNum.nonneg x <-> sf_nonneg (Prim2SF x) = true.
Proof.
  unfold PyNum.nonneg. rewrite leb_spec.
  change (Prim2SF 0) with (S754_zero false).
  rewrite SFleb_zero. tauto.
Qed.

Lemma shr_1_m_nonneg (mrs : shr_record) : 0 <= shr_m mrs -> 0 <= shr_m (shr_1 mrs).
Proof.
  destruct mrs as [m r s]; simpl.
  destruct m as [|p|p]; [ | destruct p | destruct p ]; simpl; lia.
Qed.

Lemma iter_pos_preserves {A} (P : A -> Prop) (f : A -> A) :
  (forall x, P x -> P (f x)) -> forall n x, P x -> P (iter_pos f n x).
Proof.
  intros Hf n. induction n as [n IH|n IH| ]; intros x Hx; simpl; auto.
Qed.

Lemma shr_m_nonneg (mrs : shr_record) (e n : Z) :
  0 <= shr_m mrs -> 0 <= shr_m (fst (shr mrs e n)).
Proof.
  intros H. destruct n as [|p|p]; simpl; auto.
  apply (iter_pos_preserves (fun r => 0 <= shr_m r)); auto using shr_1_m_nonneg.
Qed.

Lemma shr_record_of_loc_m (m : Z) (l : location) : shr_m (shr_record_of_loc m l) = m.
Proof. destruct l as [|[]]; reflexivity. Qed.

Lemma shr_fexp_m_nonneg (m e : Z) (l : location) :
  0 <= m -> 0 <= shr_m (fst (shr_fexp prec emax m e l)).
Proof.
  intros H. unfold shr_fexp. apply shr_m_nonneg.
  now rewrite shr_record_of_loc_m.
Qed.

Lemma round_nearest_even_nonneg (m : Z) (l : location) :
  0 <= m -> 0 <= round_nearest_even m l.
Proof.
  intros H. destruct l as [|[]]; simpl; try destruct (Z.even m); lia.
Qed.

(** Rounding a mantissa that is not negative under the sign [+] gives
    [+0], a positive finite float or [+inf], never nan. *)
Lemma binary_round_aux_nonneg (mx ex : Z) (lx : location) :
  0 <= mx -> sf_nonneg (binary_round_aux prec emax false mx ex lx) = true.
Proof.
  intros H. unfold binary_round_aux.
  pose proof (shr_fexp_m_nonneg mx ex lx H) as H1.
  destruct (shr_fexp prec emax mx ex lx) as [mrs' e']. simpl in H1.
  pose proof (shr_fexp_m_nonneg _ e' loc_Exact
                (round_nearest_even_nonneg _ (loc_of_shr_record mrs') H1)) as H2.
  destruct (shr_fexp prec emax _ e' loc_Exact) as [mrs'' e'']. simpl in H2.
  destruct (shr_m mrs'') as [|p|p]; try reflexivity.
  - destruct (e'' <=? emax - prec); reflexivity.
  - lia.
Qed.

Lemma binary_round_nonneg (m : positive) (e : Z) :
  sf_nonneg (binary_round prec emax false m e) = true.
Proof.
  unfold binary_round.
  destruct (shl_align m e _) as [mz ez].
  apply binary_round_aux_nonneg. lia.
Qed.

Lemma SFadd_nonneg (x y : spec_float) :
  sf_nonneg x = true -> sf_nonneg y = true -> sf_nonneg (SF64add x y) = true.
Proof.
  destruct x as [sx|sx| |sx mx ex], y as [sy|sy| |sy my ey];
    try destruct sx; try destruct sy; simpl; intros Hx Hy;
    try discriminate; try reflexivity.
  apply binary_round_nonneg.
Qed.

Lemma SFmul_nonneg (x : spec_float) (m : positive) (e : Z) :
  sf_nonneg x = true -> sf_nonneg (SF64mul x (S754_finite false m e)) = true.
Proof.
  destruct x as [sx|sx| |sx mx ex];
    try destruct sx; simpl; intros Hx;
    try discriminate; try reflexivity.
  apply binary_round_aux_nonneg. lia.
Qed.

(** [x + y >= 0] when [x >= 0] and [y >= 0]. *)
Lemma nonneg_add (x y : float) :
  PyNum.nonneg x -> PyNum.nonneg y -> PyNum.nonneg (x + y).
Proof.
  rewrite !nonneg_spec, add_spec. apply SFadd_nonneg.
Qed.

(** [x * 1000 >= 0] when [x >= 0]. *)
Lemma nonneg_mul_1000 (x : float) : PyNum.nonneg x -> PyNum.nonneg (x * 1000).
Proof.
  rewrite !nonneg_spec, mul_spec. intros H.
  change (Prim2SF 1000) with (S754_finite false 8796093022208000 (-43)).
  now apply SFmul_nonneg.
Qed.

Lemma nonneg_zero : PyNum.nonneg 0.
Proof. vm_compute. reflexivity. Qed.

Lemma SFltb_zero (x : spec_float) : SFltb x (S754_zero false) = sf_negative x.
Proof. destruct x as [s|s| |s m e]; try destruct s; reflexivity. Qed.

Lemma negative_spec (x : float) : PyNum.negative x <-> sf_negative (Prim2SF x) = true.
Proof.
  unfold PyNum.negative. rewrite ltb_spec.
  change (Prim2SF 0) with (S754_zero false).
  rewrite SFltb_zero. tauto.
Qed.

Lemma digits2_pos_size (p : positive) : digits2_pos p = Pos.size p.
Proof. induction p; simpl; congruence. Qed.

(** A mantissa of [d] binary digits is at least [2^(d-1)]. *)
Lemma digits2_pos_le (p : positive) : 2 ^ (Zpos (digits2_pos p) - 1) <= Zpos p.
Proof.
  rewrite digits2_pos_size.
  pose proof (Pos.size_le p) as H.
  apply Pos2Z.pos_le_pos in H. rewrite Pos2Z.inj_pow in H.
  replace (Zpos (Pos.size p)) with (1 + (Zpos (Pos.size p) - 1)) in H by lia.
  rewrite Z.pow_add_r in H by lia.
  change (2 ^ 1) with 2 in H. lia.
Qed.

Lemma shr_1_m_half (mrs : shr_record) :
  0 <= shr_m mrs -> shr_m (shr_1 mrs) = shr_m mrs / 2.
Proof.
  destruct mrs as [m r s]; simpl.
  destruct m as [|p|p]; [ | destruct p | ]; simpl; intros H;
    try lia; try reflexivity.
  - apply (Z.div_unique_pos _ 2 _ 1); lia.
  - apply (Z.div_unique_pos _ 2 _ 0); lia.
Qed.

Lemma pow2_xI (p : positive) : 2 ^ Zpos p~1 = 2 * (2 ^ Zpos p * 2 ^ Zpos p).
Proof.
  assert (E : Zpos p~1 = 1 + (Zpos p + Zpos p)) by lia.
  rewrite E, Z.pow_add_r by lia. rewrite Z.pow_add_r by lia. reflexivity.
Qed.

Lemma pow2_xO (p : positive) : 2 ^ Zpos p~0 = 2 ^ Zpos p * 2 ^ Zpos p.
Proof.
  assert (E : Zpos p~0 = Zpos p + Zpos p) by lia.
  rewrite E, Z.pow_add_r by lia. reflexivity.
Qed.

(** [p] right shifts divide the mantissa by [2^p]. *)
Lemma iter_shr_1_m (p : positive) (mrs : shr_record) :
  0 <= shr_m mrs ->
  0 <= shr_m (iter_pos shr_1 p mrs)
  /\ shr_m (iter_pos shr_1 p mrs) = shr_m mrs / 2 ^ Zpos p.
Proof.
  revert mrs. induction p as [p IH|p IH| ]; intros mrs H; simpl iter_pos.
  - pose proof (shr_1_m_nonneg mrs H) as H1.
    destruct (IH _ H1) as [H2 E2]. destruct (IH _ H2) as [H3 E3].
    split; [exact H3 | ].
    assert (P : 0 < 2 ^ Zpos p) by (apply Z.pow_pos_nonneg; lia).
    rewrite E3, E2, shr_1_m_half by exact H.
    rewrite pow2_xI, !Z.div_div by lia.
    f_equal; lia.
  - destruct (IH _ H) as [H2 E2]. destruct (IH _ H2) as [H3 E3].
    split; [exact H3 | ].
    assert (P : 0 < 2 ^ Zpos p) by (apply Z.pow_pos_nonneg; lia).
    rewrite E3, E2, pow2_xO, Z.div_div by lia. reflexivity.
  - split; [now apply shr_1_m_nonneg | ].
    rewrite shr_1_m_half by exact H. reflexivity.
Qed.

Lemma shr_m_pos (mrs : shr_record) (e n : Z) :
  0 < shr_m mrs -> (0 < n -> 2 ^ n <= shr_m mrs) ->
  0 < shr_m (fst (shr mrs e n)).
Proof.
  intros H Hn. destruct n as [|p|p]; simpl; auto.
  destruct (iter_shr_1_m p mrs) as [_ E]; [lia | ].
  rewrite E. apply Z.div_str_pos. split; [ | apply Hn; lia ].
  apply Z.pow_pos_nonneg; lia.
Qed.

(** Shifting a positive mantissa to its canonical exponent leaves it
    positive when the shift is not forced past its digits by [emin]; the
    exponent reached is at least [emin]. *)
Lemma shr_fexp_m_pos (m e : Z) (l : location) :
  0 < m -> (e < emin -> 2 ^ (emin - e) <= m) ->
  0 < shr_m (fst (shr_fexp prec emax m e l))
  /\ emin <= snd (shr_fexp prec emax m e l).
Proof.
  intros H He. unfold shr_fexp.
  destruct m as [|p|p]; try lia. simpl Zdigits2.
  pose proof (digits2_pos_le p) as D.
  set (d := Zpos (digits2_pos p)) in *.
  assert (Hd : 0 < d) by (unfold d; lia).
  split.
  - apply shr_m_pos; rewrite shr_record_of_loc_m; [lia | ].
    unfold fexp, SpecFloat.emin, prec, emax in *. intros Hn.
    destruct (Z.max_spec (d + e - 53) (3 - 1024 - 53)) as [[_ M]|[_ M]];
      rewrite M in *.
    + apply He. lia.
    + apply Z.le_trans with (2 ^ (d - 1)); [ | exact D ].
      apply Z.pow_le_mono_r; lia.
  - unfold shr. unfold fexp, SpecFloat.emin, prec, emax in *.
    destruct (Z.max (d + e - 53) (3 - 1024 - 53) - e) as [|n|n] eqn:N; simpl; lia.
Qed.

Lemma round_nearest_even_ge (m : Z) (l : location) : m <= round_nearest_even m l.
Proof. destruct l as [|[]]; simpl; try destruct (Z.even m); lia. Qed.

(** Rounding under the sign [-] a positive mantissa that [emin] does not
    push below its last digit gives a negative finite float or [-inf]:
    neither a zero nor nan. *)
Lemma binary_round_aux_negative (mx ex : Z) (lx : location) :
  0 < mx -> (ex < emin -> 2 ^ (emin - ex) <= mx) ->
  sf_negative (binary_round_aux prec emax true mx ex lx) = true.
Proof.
  intros H He. unfold binary_round_aux.
  destruct (shr_fexp_m_pos mx ex lx H He) as [H1 E1].
  destruct (shr_fexp prec emax mx ex lx) as [mrs' e']. simpl in H1, E1.
  pose proof (round_nearest_even_ge (shr_m mrs') (loc_of_shr_record mrs')) as R.
  destruct (shr_fexp_m_pos (round_nearest_even (shr_m mrs') (loc_of_shr_record mrs'))
              e' loc_Exact) as [H2 _]; [lia | lia | ].
  destruct (shr_fexp prec emax _ e' loc_Exact) as [mrs'' e'']. simpl in H2.
  destruct (shr_m mrs'') as [|p|p]; try lia.
  destruct (e'' <=? emax - prec); reflexivity.
Qed.

Lemma valid_binary_emin (s : bool) (m : positive) (e : Z) :
  valid_binary (S754_finite s m e) = true -> emin <= e.
Proof.
  simpl. unfold bounded, canonical_mantissa, fexp, SpecFloat.emin, prec, emax.
  intros H. apply andb_prop in H. destruct H as [H _].
  apply Z.eqb_eq in H. lia.
Qed.

Lemma SFmul_1000_negative (x : spec_float) :
  valid_binary x = true -> sf_negative x = true ->
  sf_negative (SF64mul x (S754_finite false 8796093022208000 (-43))) = true.
Proof.
  destruct x as [sx|sx| |sx mx ex]; simpl sf_negative; intros V N;
    try discriminate; subst sx; try reflexivity.
  apply valid_binary_emin in V.
  unfold SF64mul, SFmul. simpl xorb.
  apply binary_round_aux_negative; [lia | ].
  unfold SpecFloat.emin, prec, emax in *. intros Hlt.
  apply Z.le_trans with (2 ^ 43).
  - apply Z.pow_le_mono_r; lia.
  - rewrite Pos2Z.inj_mul.
    assert (P : 2 ^ 43 <= 8796093022208000) by (vm_compute; discriminate).
    nia.
Qed.

(** [x * 1000 < 0] when [x < 0]. *)
Lemma negative_mul_1000 (x : float) : PyNum.negative x -> PyNum.negative (x * 1000).
Proof.
  rewrite !negative_spec, mul_spec. intros H.
  change (Prim2SF 1000) with (S754_finite false 8796093022208000 (-43)).
  apply SFmul_1000_negative; [apply Prim2SF_valid | exact H].
Qed.

End FloatSigns.

(** ** What one probe does *)

Section Probe.

Variables (h : string) (t : Z).

Lemma send_ping_replied (w : attempt) :
  first_raised w = None ->
  send_ping h t w = ([], inr (Some (elapsed w * 1000)%float)).
Proof.
  unfold first_raised, send_ping, elapsed.
  destruct w as [g so st t0 sd rc t1]; simpl.
  destruct g, so, st, sd, rc; intros H; try discriminate H.
  destruct u, u0, u1, u2. reflexivity.
Qed.

Lemma send_ping_failed (w : attempt) (e : exn) :
  first_raised w = Some e ->
  send_ping h t w = ([failure_record h e], inr None).
Proof.
  unfold first_raised, send_ping.
  destruct w as [g so st t0 sd rc t1]; simpl.
  destruct g, so, st, sd, rc; intros H; inversion H; subst;
    destruct e; reflexivity.
Qed.

(** [send_ping] on an attempt: a float and no record, or [None] and the
    record of the failure. *)
Lemma send_ping_cases (w : attempt) :
  (first_raised w = None
   /\ send_ping h t w = ([], inr (Some (elapsed w * 1000)%float)))
  \/ (exists e, first_raised w = Some e
      /\ send_ping h t w = ([failure_record h e], inr None)).
Proof.
  destruct (first_raised w) as [e|] eqn:E.
  - right. exists e. split; [reflexivity | now apply send_ping_failed].
  - left. split; [reflexivity | now apply send_ping_replied].
Qed.

Lemma send_ping_returns (w : attempt) :
  exists v, outcome (send_ping h t w) = inr v.
Proof.
  destruct (send_ping_cases w) as [[_ E]|[e [_ E]]]; rewrite E; simpl; eauto.
Qed.

End Probe.

(** ** [range] *)

Lemma range_length (n : Z) : List.length (range n) = Z.to_nat n.
Proof. unfold range. now rewrite length_map, length_seq. Qed.

Lemma range_nonpos (n : Z) : n <= 0 -> range n = [].
Proof.
  intros H. unfold range. replace (Z.to_nat n) with 0%nat by lia. reflexivity.
Qed.

Lemma range_In (n i : Z) : In i (range n) <-> 0 <= i < n.
Proof.
  unfold range. rewrite in_map_iff. split.
  - intros [k [<- Hk]]. apply in_seq in Hk. lia.
  - intros H. exists (Z.to_nat i). split; [lia | apply in_seq; lia].
Qed.

Lemma firstn_seq (k a n : nat) : firstn k (seq a n) = seq a (Nat.min k n).
Proof.
  revert a n. induction k as [|k IH]; intros a [|n]; simpl; try reflexivity.
  now rewrite IH.
Qed.

Lemma range_firstn (n : Z) (k : nat) :
  firstn k (range n) = range (Z.of_nat (Nat.min k (Z.to_nat n))).
Proof.
  unfold range. rewrite firstn_map, firstn_seq, Nat2Z.id. reflexivity.
Qed.

(** ** What the loop does *)

Section Session.

Variables (args : Namespace) (net : Z -> attempt).

Lemma iteration_eq (i : Z) (s : stats) :
  iteration args net i s = (iteration_records args net i, inr (step args net s i)).
Proof.
  unfold iteration, iteration_records, step, outcome_record.
  destruct (send_ping_cases (host args) (timeout args) (net i))
    as [[_ E]|[e [_ E]]]; rewrite E; reflexivity.
Qed.

Lemma for_each_eq (l : list Z) (s : stats) :
  for_each l (iteration args net) s
  = (flat_map (iteration_records args net) l, inr (fold_left (step args net) l s)).
Proof.
  revert s. induction l as [|i l IH]; intros s; simpl.
  - reflexivity.
  - rewrite iteration_eq. simpl. rewrite IH. reflexivity.
Qed.

Lemma probe_loop_eq :
  probe_loop args net
  = (flat_map (iteration_records args net) (range (count args)),
     inr (fold_left (step args net) (range (count args)) initial)).
Proof. apply for_each_eq. Qed.

Lemma final_stats_eq :
  final_stats args net = fold_left (step args net) (range (count args)) initial.
Proof. unfold final_stats. now rewrite probe_loop_eq. Qed.

Lemma stats_after_eq (k : nat) :
  stats_after args net k
  = fold_left (step args net) (firstn k (range (count args))) initial.
Proof. unfold stats_after. now rewrite for_each_eq. Qed.

Lemma summary_some (s : stats) :
  0 < successful_pings s ->
  summary args s
  = ([info (StatisticsFor (host args));
      info (Packets (count args) (successful_pings s)
                    (count args - successful_pings s));
      info (AverageResponseTime
              (total_time s / PyNum.of_int (successful_pings s))%float)],
     inr tt).
Proof.
  intros H. unfold summary, summary_by, truediv.
  destruct (0 <? successful_pings s) eqn:E1; [ | lia ].
  destruct (successful_pings s =? 0) eqn:E2; [ lia | reflexivity ].
Qed.

Lemma summary_by_none (divide : float -> Z -> M float) (s : stats) :
  successful_pings s <= 0 ->
  summary_by divide args s = ([info (NoResponsesReceived (host args))], inr tt).
Proof.
  intros H. unfold summary_by.
  destruct (0 <? successful_pings s) eqn:E1; [ lia | reflexivity ].
Qed.

Lemma summary_none (s : stats) :
  successful_pings s <= 0 ->
  summary args s = ([info (NoResponsesReceived (host args))], inr tt).
Proof. apply summary_by_none. Qed.

Lemma summary_returns (s : stats) : outcome (summary args s) = inr tt.
Proof.
  destruct (Z_lt_le_dec 0 (successful_pings s)) as [H|H].
  - now rewrite summary_some.
  - now rewrite summary_none.
Qed.

Lemma main_eq :
  main args net
  = (info (Starting (host args) (count args) (timeout args))
       :: flat_map (iteration_records args net) (range (count args))
       ++ summary_records args net,
     inr tt).
Proof.
  unfold main, summary_records. rewrite final_stats_eq.
  rewrite probe_loop_eq. simpl.
  pose proof (summary_returns (fold_left (step args net) (range (count args)) initial)) as R.
  destruct (summary args _) as [l r]. simpl in R. subst r. reflexivity.
Qed.

(** With nothing to iterate over, the run is the start-of-session record
    and the "No responses received" record. *)
Lemma main_without_probes :
  count args <= 0 ->
  probe_loop args net = ([], inr initial)
  /\ summary_records args net = [info (NoResponsesReceived (host args))]
  /\ main args net
     = ([info (Starting (host args) (count args) (timeout args));
         info (NoResponsesReceived (host args))], inr tt).
Proof.
  intros H.
  assert (L : probe_loop args net = ([], inr initial))
    by (rewrite probe_loop_eq, range_nonpos by exact H; reflexivity).
  assert (S : summary_records args net = [info (NoResponsesReceived (host args))]).
  { unfold summary_records, final_stats. rewrite L. reflexivity. }
  repeat split; try assumption.
  rewrite main_eq, S, range_nonpos by exact H. reflexivity.
Qed.

End Session.

(** ** Counting over the iterations *)

Section Counting.

Variables (args : Namespace) (net : Z -> attempt).

Lemma step_successful_pings (s : stats) (i : Z) :
  successful_pings (step args net s i)
  = successful_pings s + (if succeeded args net i then 1 else 0).
Proof.
  unfold step, succeeded.
  destruct (outcome (send_ping _ _ _)) as [e|[r|]]; simpl; lia.
Qed.

Lemma fold_successful_pings (l : list Z) (s : stats) :
  successful_pings (fold_left (step args net) l s)
  = successful_pings s + Z.of_nat (List.length (filter (succeeded args net) l)).
Proof.
  revert s. induction l as [|i l IH]; intros s; simpl.
  - lia.
  - rewrite IH, step_successful_pings.
    destruct (succeeded args net i); simpl List.length; lia.
Qed.

Lemma final_successful_pings :
  successful_pings (final_stats args net) = successes args net.
Proof.
  rewrite final_stats_eq, fold_successful_pings. reflexivity.
Qed.

Lemma successes_bounds : 0 <= successes args net <= Z.max 0 (count args).
Proof.
  unfold successes.
  pose proof (filter_length_le (succeeded args net) (range (count args))) as H.
  rewrite range_length in H. lia.
Qed.

Lemma fold_no_success (l : list Z) (s : stats) :
  (forall i, In i l -> succeeded args net i = false) ->
  fold_left (step args net) l s = s.
Proof.
  revert s. induction l as [|i l IH]; intros s H; simpl.
  - reflexivity.
  - assert (E : step args net s i = s).
    { specialize (H i (or_introl eq_refl)). unfold step, succeeded in *.
      destruct (outcome (send_ping _ _ _)) as [e|[r|]];
        [reflexivity | discriminate | reflexivity]. }
    rewrite E. apply IH. intros j Hj. apply H. now right.
Qed.

Lemma successes_zero :
  successes args net = 0 <->
  (forall i, In i (range (count args)) -> succeeded args net i = false).
Proof.
  unfold successes. split.
  - intros H i Hi.
    destruct (succeeded args net i) eqn:E; [ | reflexivity ].
    assert (Hin : In i (filter (succeeded args net) (range (count args))))
      by (apply filter_In; auto).
    destruct (filter _ _); [destruct Hin | simpl in H; lia].
  - intros H.
    replace (filter (succeeded args net) (range (count args))) with (@nil Z);
      [reflexivity | ].
    symmetry. induction (range (count args)) as [|i l IH]; simpl.
    + reflexivity.
    + rewrite (H i (or_introl eq_refl)). apply IH.
      intros j Hj. apply H. now right.
Qed.

(** The per-attempt outcome records of the iterations [l], in order. *)
Lemma outcome_records (l : list Z) :
  filter is_outcome (flat_map (iteration_records args net) l)
  = map (outcome_record args net) l.
Proof.
  induction l as [|i l IH]; simpl.
  - reflexivity.
  - rewrite filter_app, IH. f_equal.
    unfold iteration_records, outcome_record.
    destruct (send_ping_cases (host args) (timeout args) (net i))
      as [[_ E]|[e [_ E]]]; rewrite E; simpl.
    + reflexivity.
    + destruct e; reflexivity.
Qed.

Lemma sending_records (l : list Z) :
  filter is_sending (flat_map (iteration_records args net) l)
  = map (fun i => info (Sending (i + 1) (host args))) l.
Proof.
  induction l as [|i l IH]; simpl.
  - reflexivity.
  - rewrite filter_app, IH.
    unfold iteration_records, outcome_record.
    destruct (send_ping_cases (host args) (timeout args) (net i))
      as [[_ E]|[e [_ E]]]; rewrite E; simpl.
    + reflexivity.
    + destruct e; reflexivity.
Qed.

Lemma attempt_no_outcome_record (i : Z) :
  attempt_no (outcome_record args net i) = i + 1.
Proof.
  unfold outcome_record.
  destruct (outcome (send_ping _ _ _)) as [e|[r|]]; reflexivity.
Qed.

Lemma summary_records_outcome_free :
  filter is_outcome (summary_records args net) = []
  /\ filter is_sending (summary_records args net) = [].
Proof.
  unfold summary_records.
  destruct (Z_lt_le_dec 0 (successful_pings (final_stats args net))) as [H|H].
  - rewrite summary_some by exact H. split; reflexivity.
  - rewrite summary_none by exact H. split; reflexivity.
Qed.

End Counting.

(** ** The session on examples *)

Example mixed_run :
  map (fun r => getMessage (msg r)) (records (main (session 4) mixed))
  = [ "Starting ping to example.org with 4 requests and 1s timeout.";
      "Sending ping 1 to example.org...";
      "Ping 1: Response time = 10.00 ms";
      "Sending ping 2 to example.org...";
      "Ping to example.org timed out.";
      "Ping 2: No response.";
      "Sending ping 3 to example.org...";
      "Ping 3: Response time = 20.00 ms";
      "Sending ping 4 to example.org...";
      "An error occurred during ping: x";
      "Ping 4: No response.";
      "Ping statistics for example.org:";
      "  Packets: Sent = 4, Received = 2, Lost = 2";
      "  Average response time = 15.00 ms" ]%string.
Proof. vm_compute. reflexivity. Qed.

Example all_lost_run :
  map (fun r => getMessage (msg r)) (records (main (session 2) (script [])))
  = [ "Starting ping to example.org with 2 requests and 1s timeout.";
      "Sending ping 1 to example.org...";
      "Ping to example.org timed out.";
      "Ping 1: No response.";
      "Sending ping 2 to example.org...";
      "Ping to example.org timed out.";
      "Ping 2: No response.";
      "No responses received from example.org." ]%string.
Proof. vm_compute. reflexivity. Qed.

Example all_failed_run :
  map (fun r => getMessage (msg r))
    (records (main (session 3) (script [unresolved; timed_out; refused "boom"])))
  = [ "Starting ping to example.org with 3 requests and 1s timeout.";
      "Sending ping 1 to example.org...";
      "Failed to resolve host: example.org";
      "Ping 1: No response.";
      "Sending ping 2 to example.org...";
      "Ping to example.org timed out.";
      "Ping 2: No response.";
      "Sending ping 3 to example.org...";
      "An error occurred during ping: boom";
      "Ping 3: No response.";
      "No responses received from example.org." ]%string.
Proof. vm_compute. reflexivity. Qed.

Example set_back_run :
  map (fun r => getMessage (msg r)) (records (main (session 1) set_back))
  = [ "Starting ping to example.org with 1 requests and 1s timeout.";
      "Sending ping 1 to example.org...";
      "Ping 1: Response time = -1000.00 ms";
      "Ping statistics for example.org:";
      "  Packets: Sent = 1, Received = 1, Lost = 0";
      "  Average response time = -1000.00 ms" ]%string.
Proof. vm_compute. reflexivity. Qed.

(** ** The summary *)

(** C1, as it stands: a session of one probe that times out ends with the
    single record "No responses received from ...", which reports neither
    sent = 1 nor received = 0 nor lost = 1. *)
Lemma lost_probe_summary_has_no_counts :
  summary_records (session 1) (script [timed_out])
  = [info (NoResponsesReceived example_host)]
  /\ ~ reports_packets (summary_records (session 1) (script [timed_out])) 1 0 1.
Proof.
  assert (E : summary_records (session 1) (script [timed_out])
              = [info (NoResponsesReceived example_host)])
    by (vm_compute; reflexivity).
  split; [exact E | ].
  rewrite E. unfold reports_packets. simpl. intros [H|[]]. discriminate H.
Qed.

(** C1, amended: in every run the counter [successful_pings] ends as the
    number of probes that succeeded, which lies between 0 and [count] (0
    for a negative [count]); when that number is positive the summary
    reports sent = count, received = that number and lost = count - received
    (so received + lost = sent); when it is zero the summary is the single
    "No responses received" record and reports no counts. *)
Theorem summary_counts (args : Namespace) (net : Z -> attempt) :
  successful_pings (final_stats args net) = successes args net
  /\ 0 <= successes args net <= Z.max 0 (count args)
  /\ (0 < successes args net ->
      summary_records args net
      = [info (StatisticsFor (host args));
         info (Packets (count args) (successes args net)
                       (count args - successes args net));
         info (AverageResponseTime
                 (total_time (final_stats args net)
                  / PyNum.of_int (successes args net))%float)]
      /\ reports_packets (summary_records args net)
           (count args) (successes args net) (count args - successes args net)
      /\ successes args net + (count args - successes args net) = count args)
  /\ (successes args net = 0 ->
      summary_records args net = [info (NoResponsesReceived (host args))]).
Proof.
  pose proof (final_successful_pings args net) as F.
  split; [exact F | split; [apply successes_bounds | split]].
  - intros H. unfold summary_records, reports_packets.
    rewrite summary_some by lia. rewrite F. simpl.
    split; [reflexivity | split; [ | lia ]].
    right. left. reflexivity.
  - intros H. unfold summary_records. rewrite summary_none by lia. reflexivity.
Qed.

(** C6: when no probe of the run succeeds the summary is the
    "No responses received" record, whatever the division of line 109 would
    do (it is not evaluated); and a summary never ends in an exception, so
    the division by zero is out of reach. *)
Theorem no_success_no_division (args : Namespace) (net : Z -> attempt) :
  (forall i, 0 <= i < count args ->
     exists o, probe args net i = Some o /\ is_failure o = true) ->
  (forall divide,
     summary_by divide args (final_stats args net)
     = ([info (NoResponsesReceived (host args))], inr tt))
  /\ summary_records args net = [info (NoResponsesReceived (host args))]
  /\ (forall s, outcome (summary args s) = inr tt)
  /\ outcome (main args net) = inr tt.
Proof.
  intros H.
  assert (Z0 : successes args net = 0).
  { apply successes_zero. intros i Hi. apply range_In in Hi.
    destruct (H i Hi) as [o [Ho Hf]]. unfold succeeded, probe in *.
    destruct (send_ping_cases (host args) (timeout args) (net i))
      as [[_ E]|[e [_ E]]]; rewrite E in *; simpl in *.
    - inversion Ho; subst o. discriminate Hf.
    - reflexivity. }
  pose proof (final_successful_pings args net) as F.
  repeat split.
  - intros divide. apply summary_by_none. lia.
  - unfold summary_records. rewrite summary_none by lia. reflexivity.
  - apply summary_returns.
  - now rewrite main_eq.
Qed.

Lemma no_success_no_division_witness :
  summary_records (session 2) (script []) = [info (NoResponsesReceived example_host)].
Proof.
  refine (proj1 (proj2 (no_success_no_division (session 2) (script []) _))).
  intros i Hi. simpl in Hi.
  assert (D : i = 0 \/ i = 1) by lia.
  destruct D as [-> | ->]; exists Timeout; split; vm_compute; reflexivity.
Defined.

(** C7, as it stands: with [--count 0] the summary is the single record
    "No responses received from ...": no record reports sent = 0,
    received = 0 and lost = 0. *)
Lemma zero_count_summary_has_no_counts :
  summary_records (session 0) mixed = [info (NoResponsesReceived example_host)]
  /\ ~ reports_packets (summary_records (session 0) mixed) 0 0 0.
Proof.
  assert (E : summary_records (session 0) mixed
              = [info (NoResponsesReceived example_host)])
    by (vm_compute; reflexivity).
  split; [exact E | ].
  rewrite E. unfold reports_packets. simpl. intros [H|[]]. discriminate H.
Qed.

(** C7, amended: with [count = 0] the body of the loop never runs (no
    record of an attempt, accumulators untouched) and the run logs the
    start-of-session record and then the single summary record
    "No responses received from ...", with no counts and no average. *)
Theorem zero_count (args : Namespace) (net : Z -> attempt) :
  count args = 0 ->
  main args net
  = ([info (Starting (host args) 0 (timeout args));
      info (NoResponsesReceived (host args))], inr tt)
  /\ probe_loop args net = ([], inr initial)
  /\ summary_records args net = [info (NoResponsesReceived (host args))].
Proof.
  intros H.
  destruct (main_without_probes args net) as [L [S E]]; [lia | ].
  rewrite H in E. auto.
Qed.

Lemma zero_count_witness :
  main (session 0) mixed
  = ([info (Starting example_host 0 1); info (NoResponsesReceived example_host)], inr tt).
Proof. exact (proj1 (zero_count (session 0) mixed eq_refl)). Defined.

(** C10: with a negative [count] the body of the loop never runs, no probe
    is made (the run does not depend on the network), nothing is raised and
    the summary is the "No responses received" record: past the
    start-of-session record, which prints the count, the run is the one of
    [count = 0]. *)
Theorem negative_count (args : Namespace) (net : Z -> attempt) :
  count args < 0 ->
  main args net
  = ([info (Starting (host args) (count args) (timeout args));
      info (NoResponsesReceived (host args))], inr tt)
  /\ probe_loop args net = ([], inr initial)
  /\ (forall net',
        probe_loop args net = probe_loop (with_count args 0) net'
        /\ summary_records args net = summary_records (with_count args 0) net'
        /\ tl (records (main args net)) = tl (records (main (with_count args 0) net'))
        /\ outcome (main args net) = outcome (main (with_count args 0) net')).
Proof.
  intros H.
  destruct (main_without_probes args net) as [L [S E]]; [lia | ].
  split; [exact E | split; [exact L | ]].
  intros net'.
  destruct (main_without_probes (with_count args 0) net') as [L0 [S0 E0]];
    [simpl; lia | ].
  rewrite E, E0, L, L0, S, S0. repeat split.
Qed.

Lemma negative_count_witness :
  main (session (-3)) mixed
  = ([info (Starting example_host (-3) 1); info (NoResponsesReceived example_host)],
     inr tt).
Proof. exact (proj1 (negative_count (session (-3)) mixed eq_refl)). Defined.

(** ** The events of the attempts *)

Lemma main_outcome_records (args : Namespace) (net : Z -> attempt) :
  filter is_outcome (records (main args net))
  = map (outcome_record args net) (range (count args)).
Proof.
  rewrite main_eq. unfold records. simpl.
  rewrite filter_app, outcome_records.
  destruct (summary_records_outcome_free args net) as [-> _].
  apply app_nil_r.
Qed.

Lemma main_sending_records (args : Namespace) (net : Z -> attempt) :
  filter is_sending (records (main args net))
  = map (fun i => info (Sending (i + 1) (host args))) (range (count args)).
Proof.
  rewrite main_eq. unfold records. simpl.
  rewrite filter_app, sending_records.
  destruct (summary_records_outcome_free args net) as [_ ->].
  apply app_nil_r.
Qed.

(** C8: for [count >= 0] the records of a run hold exactly [count]
    per-attempt outcome records, the one of iteration [i] (a response time
    or "No response") for [i = 0, ..., count - 1] in this order, numbered
    [1, ..., count]. *)
Theorem one_outcome_per_attempt (args : Namespace) (net : Z -> attempt) :
  0 <= count args ->
  Z.of_nat (List.length (filter is_outcome (records (main args net)))) = count args
  /\ filter is_outcome (records (main args net))
     = map (outcome_record args net) (range (count args))
  /\ map attempt_no (filter is_outcome (records (main args net)))
     = map (fun i => i + 1) (range (count args)).
Proof.
  intros H. rewrite main_outcome_records.
  rewrite length_map, range_length, map_map.
  split; [lia | split; [reflexivity | ]].
  apply map_ext. intros i. apply attempt_no_outcome_record.
Qed.

Lemma one_outcome_per_attempt_witness :
  Z.of_nat (List.length (filter is_outcome (records (main (session 4) mixed)))) = 4
  /\ map attempt_no (filter is_outcome (records (main (session 4) mixed))) = [1; 2; 3; 4].
Proof.
  destruct (one_outcome_per_attempt (session 4) mixed) as [L [_ N]].
  - simpl. lia.
  - split; [exact L | exact N].
Defined.

(** C9: an iteration whose probe returns [None] hands on the accumulators
    it was entered with, [successful_pings] and [total_time] alike; it logs
    the records of attempt [i + 1] and nothing else changes. *)
Theorem failed_probe_frame (args : Namespace) (net : Z -> attempt) (i : Z) (s : stats) :
  outcome (send_ping (host args) (timeout args) (net i)) = inr None ->
  iteration args net i s
  = (info (Sending (i + 1) (host args))
       :: records (send_ping (host args) (timeout args) (net i))
       ++ [info (NoResponse (i + 1))],
     inr s)
  /\ (forall s', outcome (iteration args net i s) = inr s' ->
        successful_pings s' = successful_pings s /\ total_time s' = total_time s).
Proof.
  intros H.
  assert (E : iteration args net i s
              = (info (Sending (i + 1) (host args))
                   :: records (send_ping (host args) (timeout args) (net i))
                   ++ [info (NoResponse (i + 1))], inr s)).
  { rewrite iteration_eq.
    unfold iteration_records, outcome_record, step. rewrite H. reflexivity. }
  split; [exact E | ].
  intros s' Hs'. rewrite E in Hs'. simpl in Hs'. inversion Hs'. auto.
Qed.

Lemma failed_probe_frame_witness :
  iteration (session 4) mixed 1 {| successful_pings := 1; total_time := 10 |}
  = ([info (Sending 2 example_host);
      {| levelname := WARNING; msg := TimedOut example_host |};
      info (NoResponse 2)],
     inr {| successful_pings := 1; total_time := 10 |}).
Proof.
  exact (proj1 (failed_probe_frame (session 4) mixed 1
                  {| successful_pings := 1; total_time := 10 |} eq_refl)).
Defined.

(** ** Failures *)

Lemma classify_failure_record (h : string) (e : exn) :
  classify ([failure_record h e], inr None) = Some (failure_kind e).
Proof. destruct e; reflexivity. Qed.

(** C3: whichever call of a probe raises, and whatever it raises
    (a resolution failure, a timeout, any other exception), [send_ping]
    returns [None] with the record that names the failure, and raises
    nothing; every iteration returns, so each of the [count] attempts is
    started; the run returns, and when every attempt failed its last record
    is the summary "No responses received". *)
Theorem failures_become_values (args : Namespace) (net : Z -> attempt) :
  (forall h t w e, first_raised w = Some e ->
     send_ping h t w = ([failure_record h e], inr None)
     /\ classify (send_ping h t w) = Some (failure_kind e))
  /\ (forall h t w, exists v, outcome (send_ping h t w) = inr v)
  /\ (forall i s, exists s', outcome (iteration args net i s) = inr s')
  /\ filter is_sending (records (main args net))
     = map (fun i => info (Sending (i + 1) (host args))) (range (count args))
  /\ outcome (main args net) = inr tt
  /\ ((forall i, 0 <= i < count args -> first_raised (net i) <> None) ->
      exists l, records (main args net)
                = l ++ [info (NoResponsesReceived (host args))]).
Proof.
  repeat split.
  - now apply send_ping_failed.
  - rewrite (send_ping_failed h t w e) by assumption.
    apply classify_failure_record.
  - intros h t w. apply send_ping_returns.
  - intros i s. rewrite iteration_eq. simpl. eauto.
  - apply main_sending_records.
  - now rewrite main_eq.
  - intros H.
    assert (Z0 : successes args net = 0).
    { apply successes_zero. intros i Hi. apply range_In in Hi.
      specialize (H i Hi). unfold succeeded.
      destruct (send_ping_cases (host args) (timeout args) (net i))
        as [[N _]|[e [_ E]]]; [contradiction | rewrite E; reflexivity]. }
    rewrite main_eq. unfold summary_records.
    rewrite summary_none by (rewrite final_successful_pings; lia).
    exists (info (Starting (host args) (count args) (timeout args))
              :: flat_map (iteration_records args net) (range (count args))).
    reflexivity.
Qed.

Lemma failures_become_values_witness :
  outcome (main (session 3) (script [unresolved; timed_out; refused "boom"])) = inr tt
  /\ exists l, records (main (session 3) (script [unresolved; timed_out; refused "boom"]))
               = l ++ [info (NoResponsesReceived example_host)].
Proof.
  destruct (failures_become_values (session 3)
              (script [unresolved; timed_out; refused "boom"]))
    as [_ [_ [_ [_ [R L]]]]].
  split; [exact R | ].
  apply L. intros i Hi. simpl in Hi.
  assert (D : i = 0 \/ i = 1 \/ i = 2) by lia.
  destruct D as [-> | [-> | ->]]; vm_compute; discriminate.
Defined.

(** ** Successes *)

Lemma classify_success (h : string) (t : Z) (w : attempt) (r : float) :
  classify (send_ping h t w) = Some (Success r) <->
  send_ping h t w = ([], inr (Some r)).
Proof.
  split.
  - destruct (send_ping_cases h t w) as [[_ E]|[e [_ E]]]; rewrite E.
    + simpl. intros H. inversion H. reflexivity.
    + rewrite classify_failure_record. destruct e; discriminate.
  - intros ->. reflexivity.
Qed.

Lemma returned_success (h : string) (t : Z) (w : attempt) (r : float) :
  outcome (send_ping h t w) = inr (Some r) ->
  classify (send_ping h t w) = Some (Success r) /\ r = (elapsed w * 1000)%float.
Proof.
  destruct (send_ping_cases h t w) as [[_ E]|[e [_ E]]]; rewrite E; simpl.
  - intros H. inversion H. split; reflexivity.
  - discriminate.
Qed.

Lemma classify_failure (h : string) (t : Z) (w : attempt) (o : ProbeOutcome) :
  classify (send_ping h t w) = Some o -> is_failure o = true ->
  outcome (send_ping h t w) = inr None.
Proof.
  destruct (send_ping_cases h t w) as [[_ E]|[e [_ E]]]; rewrite E; simpl.
  - intros H. inversion H. discriminate.
  - reflexivity.
Qed.

(** C4, as it stands: with the clock set back from 2.0 s to 1.0 s between
    the two readings, the probe returns the response time -1000.0 ms, which
    is not [>= 0]: nothing clamps it. *)
Lemma set_back_clock_negative_time :
  classify (send_ping example_host 1 (replied 2 1)) = Some (Success (-1000))
  /\ ~ PyNum.nonneg (-1000).
Proof.
  split.
  - vm_compute. reflexivity.
  - unfold PyNum.nonneg. vm_compute. discriminate.
Qed.

(** C4, amended: the response time of a successful probe is
    [(end_time - start_time) * 1000] as binary64 arithmetic gives it, with
    no clamping: it is [>= 0] whenever the elapsed time the clock reports,
    [end_time - start_time], is [>= 0], and it is [< 0] whenever that
    elapsed time is [< 0]. *)
Theorem response_time_not_clamped (h : string) (t : Z) (w : attempt) (r : float) :
  classify (send_ping h t w) = Some (Success r) ->
  r = ((time_after_recv w - time_before_send w) * 1000)%float
  /\ (PyNum.nonneg (time_after_recv w - time_before_send w) -> PyNum.nonneg r)
  /\ (PyNum.negative (time_after_recv w - time_before_send w) -> PyNum.negative r).
Proof.
  intros H. apply classify_success in H.
  assert (O : outcome (send_ping h t w) = inr (Some r)) by (rewrite H; reflexivity).
  destruct (returned_success h t w r O) as [_ E].
  split; [exact E | split; intros N; rewrite E ].
  - now apply nonneg_mul_1000.
  - now apply negative_mul_1000.
Qed.

Lemma response_time_not_clamped_witness :
  ((10 = (ten_ms - 0) * 1000)%float /\ PyNum.nonneg 10)
  /\ ((-1000 = (1 - 2) * 1000)%float /\ PyNum.negative (-1000)).
Proof.
  split.
  - destruct (response_time_not_clamped example_host 1 (replied 0 ten_ms) 10)
      as [E [N _]].
    + vm_compute. reflexivity.
    + split; [exact E | ]. apply N. vm_compute. reflexivity.
  - destruct (response_time_not_clamped example_host 1 (replied 2 1) (-1000))
      as [E [_ N]].
    + vm_compute. reflexivity.
    + split; [exact E | ]. apply N. vm_compute. reflexivity.
Defined.

(** ** The average *)

(** C2: when [successful_pings] is positive after the loop, the summary
    reports the average [total_time / successful_pings]; and a run of four
    probes with the outcomes Success 10.0, Timeout, Success 20.0, OtherError
    is summed up as sent 4, received 2, lost 2 and the average 15.0, printed
    "15.00 ms". *)
Theorem average_latency :
  (forall args net,
     0 < successful_pings (final_stats args net) ->
     reports_average (summary_records args net)
       (total_time (final_stats args net)
        / PyNum.of_int (successful_pings (final_stats args net)))%float)
  /\ (forall args net x,
        count args = 4 ->
        probe args net 0 = Some (Success 10) ->
        probe args net 1 = Some Timeout ->
        probe args net 2 = Some (Success 20) ->
        probe args net 3 = Some (OtherError x) ->
        final_stats args net = {| successful_pings := 2; total_time := 30 |}
        /\ summary_records args net
           = [info (StatisticsFor (host args));
              info (Packets 4 2 2);
              info (AverageResponseTime 15)]
        /\ map (fun r => getMessage (msg r)) (tl (summary_records args net))
           = ["  Packets: Sent = 4, Received = 2, Lost = 2";
              "  Average response time = 15.00 ms"]%string).
Proof.
  split.
  - intros args net H. unfold summary_records, reports_average.
    rewrite summary_some by exact H. simpl. auto.
  - intros args net x C P0 P1 P2 P3. unfold probe in *.
    apply classify_success in P0, P2.
    apply classify_failure in P1, P3; try reflexivity.
    assert (F : final_stats args net = {| successful_pings := 2; total_time := 30 |}).
    { rewrite final_stats_eq, C. change (range 4) with [0; 1; 2; 3].
      unfold fold_left, step. rewrite P0, P1, P2, P3. reflexivity. }
    assert (S : summary_records args net
                = [info (StatisticsFor (host args));
                   info (Packets 4 2 2);
                   info (AverageResponseTime 15)]).
    { unfold summary_records. rewrite F, summary_some by (simpl; lia).
      simpl. rewrite C. reflexivity. }
    split; [exact F | split; [exact S | ]].
    rewrite S. vm_compute. reflexivity.
Qed.

Lemma average_latency_witness :
  summary_records (session 4) mixed
  = [info (StatisticsFor example_host);
     info (Packets 4 2 2);
     info (AverageResponseTime 15)]
  /\ reports_average (summary_records (session 4) mixed) (30 / PyNum.of_int 2).
Proof.
  destruct average_latency as [A B]. split.
  - refine (proj1 (proj2 (B (session 4) mixed "x"%string eq_refl _ _ _ _)));
      vm_compute; reflexivity.
  - refine (A (session 4) mixed _). vm_compute. reflexivity.
Defined.

(** ** The invariant of the accumulators *)

Section Invariant.

Variables (args : Namespace) (net : Z -> attempt).

Lemma fold_counting (l : list Z) (s : stats) :
  0 <= successful_pings s ->
  (successful_pings s = 0 -> total_time s = 0%float) ->
  successful_pings s <= successful_pings (fold_left (step args net) l s)
                     <= successful_pings s + Z.of_nat (List.length l)
  /\ (successful_pings (fold_left (step args net) l s) = 0 ->
      total_time (fold_left (step args net) l s) = 0%float).
Proof.
  intros H0 HZ. rewrite fold_successful_pings.
  pose proof (filter_length_le (succeeded args net) l) as B.
  split; [lia | ].
  intros E.
  assert (N : filter (succeeded args net) l = []).
  { destruct (filter _ _); [reflexivity | simpl in E; lia]. }
  rewrite fold_no_success.
  - apply HZ. lia.
  - intros i Hi. destruct (succeeded args net i) eqn:Si; [ | reflexivity ].
    assert (Hin : In i (filter (succeeded args net) l)) by (apply filter_In; auto).
    rewrite N in Hin. destruct Hin.
Qed.

Lemma fold_total_nonneg (l : list Z) (s : stats) :
  PyNum.nonneg (total_time s) ->
  (forall i r, In i l -> probe args net i = Some (Success r) -> PyNum.nonneg r) ->
  PyNum.nonneg (total_time (fold_left (step args net) l s)).
Proof.
  revert s. induction l as [|i l IH]; intros s Hs Hl; simpl.
  - exact Hs.
  - apply IH.
    + unfold step.
      destruct (outcome (send_ping _ _ _)) as [e|[r|]] eqn:O; try exact Hs.
      simpl. apply nonneg_add; [exact Hs | ].
      apply (Hl i r (or_introl eq_refl)).
      now apply returned_success in O.
    + intros j r Hj. apply Hl. now right.
Qed.

Lemma step_invariant (n : Z) (s : stats) (i : Z) :
  counting_invariant n s ->
  counting_invariant (n + 1) (step args net s i)
  /\ (invariant n s ->
      (forall r, probe args net i = Some (Success r) -> PyNum.nonneg r) ->
      invariant (n + 1) (step args net s i)).
Proof.
  intros [B Z0]. unfold step.
  destruct (outcome (send_ping _ _ _)) as [e|[r|]] eqn:O.
  - split.
    + split; [lia | exact Z0].
    + intros [_ [N _]] _. split; [lia | split; assumption].
  - split.
    + split; simpl; lia.
    + intros [_ [N _]] H. split; [simpl; lia | split; simpl].
      * apply nonneg_add; [exact N | ].
        apply H. now apply returned_success in O.
      * lia.
  - split.
    + split; [lia | exact Z0].
    + intros [_ [N _]] _. split; [lia | split; assumption].
Qed.

End Invariant.

(** C5, as it stands: the accumulators satisfy the invariant before the
    loop, and after one iteration whose probe read a clock set back by a
    second they do not: [total_time] is -1000.0. *)
Lemma set_back_clock_breaks_invariant :
  invariant 0 (stats_after (session 1) set_back 0)
  /\ total_time (stats_after (session 1) set_back 1) = (-1000)%float
  /\ ~ invariant 1 (stats_after (session 1) set_back 1).
Proof.
  split; [ | split ].
  - unfold invariant. split; [simpl; lia | split].
    + vm_compute. reflexivity.
    + intros _. reflexivity.
  - vm_compute. reflexivity.
  - unfold invariant, PyNum.nonneg. intros [_ [N _]].
    vm_compute in N. discriminate N.
Qed.

(** C5, amended: after any number [k] of iterations (the first [k] of the
    run, all of them once [k] reaches [count]) the accumulators satisfy
    [0 <= successful_pings <= attempted] and
    [successful_pings = 0 -> total_time = 0], and every iteration preserves
    these; [total_time >= 0] holds as well, hence the whole invariant, as
    long as the response times returned so far were all [>= 0], and an
    iteration preserves it when the response time it gets, if any, is
    [>= 0]. *)
Theorem loop_invariant (args : Namespace) (net : Z -> attempt) :
  (forall k : nat,
     counting_invariant (Z.of_nat (Nat.min k (Z.to_nat (count args))))
       (stats_after args net k)
     /\ ((forall i r, 0 <= i < Z.of_nat k -> probe args net i = Some (Success r) ->
            PyNum.nonneg r) ->
         invariant (Z.of_nat (Nat.min k (Z.to_nat (count args))))
           (stats_after args net k)))
  /\ (forall i n s s',
        outcome (iteration args net i s) = inr s' ->
        counting_invariant n s ->
        counting_invariant (n + 1) s'
        /\ (invariant n s ->
            (forall r, probe args net i = Some (Success r) -> PyNum.nonneg r) ->
            invariant (n + 1) s'))
  /\ (forall k : nat,
        (Z.to_nat (count args) <= k)%nat ->
        stats_after args net k = final_stats args net).
Proof.
  split; [ | split ].
  - intros k. rewrite stats_after_eq.
    destruct (fold_counting args net (firstn k (range (count args))) initial)
      as [B Z0]; [simpl; lia | reflexivity | ].
    rewrite length_firstn, range_length in B. simpl in B.
    split.
    + split; [lia | exact Z0].
    + intros H. split; [lia | split; [ | exact Z0 ]].
      apply fold_total_nonneg; [apply nonneg_zero | ].
      intros i r Hi. apply H.
      rewrite range_firstn in Hi. apply range_In in Hi. lia.
  - intros i n s s' O. rewrite iteration_eq in O. simpl in O.
    inversion O; subst s'; clear O. intros C.
    apply step_invariant. exact C.
  - intros k Hk. rewrite stats_after_eq, final_stats_eq.
    rewrite firstn_all2; [reflexivity | now rewrite range_length].
Qed.

Lemma loop_invariant_witness :
  counting_invariant 1 (stats_after (session 1) set_back 1)
  /\ invariant 3 (stats_after (session 4) mixed 3).
Proof.
  destruct (loop_invariant (session 1) set_back) as [A _].
  destruct (loop_invariant (session 4) mixed) as [B _].
  split.
  - exact (proj1 (A 1%nat)).
  - refine (proj2 (B 3%nat) _).
    intros i r Hi. simpl in Hi.
    assert (D : i = 0 \/ i = 1 \/ i = 2) by lia.
    destruct D as [-> | [-> | ->]]; vm_compute; intros E; inversion E; reflexivity.
Defined.

(** ** The configuration of the root logger *)

(** X1: the option [--log] changes nothing.  Line 8 has given the root
    logger its handler on [sys.stderr] when the module was loaded, so the
    [basicConfig] of lines 89-90 finds a handler and does nothing: whatever
    [args.log] is, the handlers stay the one stream handler, no file handler
    is installed and the level stays INFO.  (On a root logger without a
    handler the same lines would install the file handler.) *)
Theorem log_option_has_no_effect (args : Namespace) :
  configure_log args module_level_config = module_level_config
  /\ handlers (configure_log args module_level_config) = [StreamHandler]
  /\ effective_level (configure_log args module_level_config) = root_level
  /\ (forall f, ~ In (FileHandler f) (handlers (configure_log args module_level_config)))
  /\ (forall f, log args = Some f -> f <> EmptyString ->
        handlers (configure_log args fresh_root) = [FileHandler f]).
Proof.
  assert (E : configure_log args module_level_config = module_level_config).
  { unfold configure_log. destruct (truthy (log args)); reflexivity. }
  rewrite E. repeat split.
  - intros f [H|[]]. discriminate H.
  - intros f Hf Hn. unfold configure_log. rewrite Hf. simpl.
    destruct f; [contradiction | reflexivity].
Qed.

Lemma log_option_has_no_effect_witness :
  handlers (configure_log
              {| host := example_host; timeout := 1; count := 4;
                 log := Some "ping.log"%string |} module_level_config)
  = [StreamHandler]
  /\ handlers (configure_log
                 {| host := example_host; timeout := 1; count := 4;
                    log := Some "ping.log"%string |} fresh_root)
     = [FileHandler "ping.log"].
Proof.
  destruct (log_option_has_no_effect
              {| host := example_host; timeout := 1; count := 4;
                 log := Some "ping.log"%string |}) as [_ [H [_ [_ F]]]].
  split; [exact H | ].
  apply F; [reflexivity | discriminate].
Defined.

(** ** The records of a run, attempt by attempt *)

Section Trace.

Variables (args : Namespace) (net : Z -> attempt).

Lemma iteration_attempt_records (i : Z) :
  iteration_records args net i = attempt_records (host args) (net i) i.
Proof.
  unfold iteration_records, attempt_records, outcome_record.
  destruct (send_ping_cases (host args) (timeout args) (net i))
    as [[N E]|[e [N E]]]; rewrite E, N; reflexivity.
Qed.

Lemma succeeded_first_raised (i : Z) :
  succeeded args net i = match first_raised (net i) with Some _ => false | None => true end.
Proof.
  unfold succeeded.
  destruct (send_ping_cases (host args) (timeout args) (net i))
    as [[N E]|[e [N E]]]; rewrite E, N; reflexivity.
Qed.


Lemma summary_records_cases :
  (0 < successes args net
   /\ summary_records args net
      = [info (StatisticsFor (host args));
         info (Packets (count args) (successes args net)
                       (count args - successes args net));
         info (AverageResponseTime
                 (total_time (final_stats args net)
                  / PyNum.of_int (successes args net))%float)])
  \/ (successes args net = 0
      /\ summary_records args net = [info (NoResponsesReceived (host args))]).
Proof.
  pose proof (final_successful_pings args net) as F.
  pose proof (successes_bounds args net) as B.
  unfold summary_records.
  destruct (Z_lt_le_dec 0 (successes args net)) as [H|H].
  - left. split; [exact H | ].
    rewrite summary_some by lia. rewrite F. reflexivity.
  - right. split; [lia | ].
    rewrite summary_none by lia. reflexivity.
Qed.

(** The counts of a test that no record outside the attempts passes. *)
Lemma count_of_main (f : LogRecord -> bool) :
  (forall m, f (info (Starting (host args) (count args) (timeout args))) = false
             /\ f (info (StatisticsFor (host args))) = false
             /\ f (info (NoResponsesReceived (host args))) = false
             /\ f (info (AverageResponseTime m)) = false) ->
  (forall s r l, f (info (Packets s r l)) = false) ->
  filter f (records (main args net))
  = flat_map (fun i => filter f (attempt_records (host args) (net i) i))
             (range (count args)).
Proof.
  intros H1 H2. rewrite main_eq. unfold records. simpl.
  destruct (H1 0%float) as [-> [Hs [Hn _]]].
  rewrite filter_app.
  replace (filter f (summary_records args net)) with (@nil LogRecord).
  - rewrite app_nil_r.
    induction (range (count args)) as [|i l IH]; cbn [flat_map].
    + reflexivity.
    + rewrite filter_app, IH, iteration_attempt_records. reflexivity.
  - destruct summary_records_cases as [[_ E]|[_ E]]; rewrite E; simpl.
    + rewrite Hs, H2. destruct (H1 (total_time (final_stats args net)
                                     / PyNum.of_int (successes args net))%float)
        as [_ [_ [_ ->]]]. reflexivity.
    + rewrite Hn. reflexivity.
Qed.

End Trace.

(** X2: the records of a run, in order: the start-of-session record; for
    each attempt [i + 1], [i = 0, ..., count - 1], "Sending ping", then
    either the response time, or the record of the failure followed by
    "No response"; then the summary.  Nothing is returned but [None], and
    nothing is raised. *)
Theorem run_trace (args : Namespace) (net : Z -> attempt) :
  main args net
  = (info (Starting (host args) (count args) (timeout args))
       :: flat_map (fun i => attempt_records (host args) (net i) i)
                   (range (count args))
       ++ summary_records args net,
     inr tt).
Proof.
  rewrite main_eq. do 3 f_equal.
  apply flat_map_ext. intros i. apply iteration_attempt_records.
Qed.


Section Counts.

Variables (args : Namespace) (net : Z -> attempt).

Lemma count_failed (l : list Z) :
  (List.length (filter (fun i => negb (succeeded args net i)) l)
   + List.length (filter (succeeded args net) l))%nat = List.length l.
Proof. rewrite Nat.add_comm. apply filter_length. Qed.

Lemma length_flat_map_filter (f : LogRecord -> bool) (b : bool) (l : list Z) :
  (forall i, List.length (filter f (attempt_records (host args) (net i) i))
             = if Bool.eqb (succeeded args net i) b then 1%nat else 0%nat) ->
  List.length (flat_map (fun i => filter f (attempt_records (host args) (net i) i)) l)
  = List.length (filter (fun i => Bool.eqb (succeeded args net i) b) l).
Proof.
  intros H. induction l as [|i l IH]; cbn [flat_map filter].
  - reflexivity.
  - rewrite length_app, IH, H.
    destruct (Bool.eqb (succeeded args net i) b); reflexivity.
Qed.

Lemma filter_succeeded_true (l : list Z) :
  filter (fun i => Bool.eqb (succeeded args net i) true) l
  = filter (succeeded args net) l.
Proof.
  apply filter_ext. intros i. destruct (succeeded args net i); reflexivity.
Qed.

Lemma filter_succeeded_false (l : list Z) :
  filter (fun i => Bool.eqb (succeeded args net i) false) l
  = filter (fun i => negb (succeeded args net i)) l.
Proof.
  apply filter_ext. intros i. destruct (succeeded args net i); reflexivity.
Qed.

Lemma count_responses :
  count_of is_response (records (main args net)) = successes args net.
Proof.
  unfold count_of, successes.
  rewrite count_of_main by (intros; repeat split; reflexivity).
  rewrite (length_flat_map_filter is_response true), filter_succeeded_true;
    [reflexivity | ].
  intros i. rewrite succeeded_first_raised. unfold attempt_records.
  destruct (first_raised (net i)) as [e|]; [destruct e | ]; reflexivity.
Qed.

Lemma count_no_responses :
  count_of is_no_response (records (main args net))
  = Z.max 0 (count args) - successes args net.
Proof.
  unfold count_of, successes.
  rewrite count_of_main by (intros; repeat split; reflexivity).
  rewrite (length_flat_map_filter is_no_response false), filter_succeeded_false.
  - pose proof (count_failed (range (count args))) as H.
    rewrite range_length in H. lia.
  - intros i. rewrite succeeded_first_raised. unfold attempt_records.
    destruct (first_raised (net i)) as [e|]; [destruct e | ]; reflexivity.
Qed.

Lemma count_problems :
  count_of is_problem (records (main args net))
  = Z.max 0 (count args) - successes args net.
Proof.
  unfold count_of, successes.
  rewrite count_of_main by (intros; repeat split; reflexivity).
  rewrite (length_flat_map_filter is_problem false), filter_succeeded_false.
  - pose proof (count_failed (range (count args))) as H.
    rewrite range_length in H. lia.
  - intros i. rewrite succeeded_first_raised. unfold attempt_records.
    destruct (first_raised (net i)) as [e|]; [destruct e | ]; reflexivity.
Qed.

Lemma count_sendings :
  count_of is_sending (records (main args net)) = Z.max 0 (count args).
Proof.
  unfold count_of. rewrite main_sending_records, length_map, range_length. lia.
Qed.

End Counts.

(** X4: a run logs one warning or error for each probe that failed and
    none for a probe that succeeded: the records at level WARNING or ERROR
    are as many as the "No response" records, namely the probes made less
    those that succeeded; the "Response time" records are as many as the
    probes that succeeded. *)
Theorem one_problem_record_per_failure (args : Namespace) (net : Z -> attempt) :
  count_of is_problem (records (main args net))
  = Z.max 0 (count args) - successes args net
  /\ count_of is_no_response (records (main args net))
     = Z.max 0 (count args) - successes args net
  /\ count_of is_response (records (main args net)) = successes args net
  /\ count_of is_sending (records (main args net)) = Z.max 0 (count args).
Proof.
  split; [apply count_problems | split; [apply count_no_responses | split ]].
  - apply count_responses.
  - apply count_sendings.
Qed.

(** X5: whenever a run reports packet counts, they agree with its
    per-attempt records: Sent is the number of "Sending ping" records,
    Received the number of "Response time" records, Lost the number of
    "No response" records; and then [1 <= Received <= Sent] and
    [0 <= Lost < Sent]. *)
Theorem packets_agree_with_attempts (args : Namespace) (net : Z -> attempt)
    (sent received lost : Z) :
  reports_packets (records (main args net)) sent received lost ->
  sent = count_of is_sending (records (main args net))
  /\ received = count_of is_response (records (main args net))
  /\ lost = count_of is_no_response (records (main args net))
  /\ 1 <= received <= sent
  /\ 0 <= lost < sent
  /\ received + lost = sent.
Proof.
  unfold reports_packets. intros H.
  assert (S : In (info (Packets sent received lost)) (summary_records args net)).
  { rewrite main_eq in H. unfold records in H. simpl in H.
    destruct H as [H|H]; [discriminate H | ].
    apply in_app_or in H. destruct H as [H|H]; [exfalso | exact H].
    apply in_flat_map in H. destruct H as [i [_ H]].
    rewrite iteration_attempt_records in H. unfold attempt_records in H.
    destruct (first_raised (net i)) as [e|]; simpl in H.
    - destruct H as [H|[H|[H|[]]]]; try discriminate H.
      destruct e; discriminate H.
    - destruct H as [H|[H|[]]]; discriminate H. }
  pose proof (successes_bounds args net) as B.
  destruct (summary_records_cases args net) as [[P E]|[_ E]]; rewrite E in S;
    simpl in S.
  - destruct S as [S|[S|[S|[]]]]; try discriminate S.
    inversion S; subst sent received lost.
    rewrite count_sendings, count_responses, count_no_responses. lia.
  - destruct S as [S|[]]. discriminate S.
Qed.

Lemma packets_agree_with_attempts_witness :
  4 = count_of is_sending (records (main (session 4) mixed))
  /\ 2 = count_of is_response (records (main (session 4) mixed))
  /\ 2 = count_of is_no_response (records (main (session 4) mixed)).
Proof.
  destruct (packets_agree_with_attempts (session 4) mixed 4 2 2) as [A [B [C _]]].
  - vm_compute. right. right. right. right. right. right. right. right.
    right. right. right. right. left. reflexivity.
  - split; [exact A | split; [exact B | exact C]].
Defined.

(** ** The total and the average *)

Section Total.

Variables (args : Namespace) (net : Z -> attempt).

Lemma fold_total_time (l : list Z) (s : stats) :
  total_time (fold_left (step args net) l s)
  = fold_left PrimFloat.add (flat_map (returned args net) l) (total_time s).
Proof.
  revert s. induction l as [|i l IH]; intros s; cbn [fold_left flat_map].
  - reflexivity.
  - rewrite IH, fold_left_app. f_equal.
    unfold step, returned.
    destruct (outcome (send_ping _ _ _)) as [e|[r|]]; reflexivity.
Qed.

Lemma length_returned (l : list Z) :
  List.length (flat_map (returned args net) l) = List.length (filter (succeeded args net) l).
Proof.
  induction l as [|i l IH]; cbn [flat_map filter].
  - reflexivity.
  - rewrite length_app, IH. unfold returned, succeeded.
    destruct (outcome (send_ping _ _ _)) as [e|[r|]]; reflexivity.
Qed.

Lemma printed_times (l : list Z) :
  flat_map printed_time (flat_map (iteration_records args net) l)
  = flat_map (returned args net) l.
Proof.
  induction l as [|i l IH]; cbn [flat_map].
  - reflexivity.
  - rewrite flat_map_app, IH. f_equal.
    unfold iteration_records, outcome_record, returned.
    destruct (send_ping_cases (host args) (timeout args) (net i))
      as [[_ E]|[e [_ E]]]; rewrite E; simpl.
    + reflexivity.
    + destruct e; reflexivity.
Qed.

Lemma total_time_running_sum :
  total_time (final_stats args net) = running_sum (response_times args net).
Proof. rewrite final_stats_eq. apply fold_total_time. Qed.

Lemma length_response_times :
  successes args net = Z.of_nat (List.length (response_times args net)).
Proof. unfold successes, response_times. now rewrite <- length_returned. Qed.

Lemma main_printed_times :
  flat_map printed_time (records (main args net)) = response_times args net.
Proof.
  rewrite main_eq. unfold records. simpl.
  rewrite flat_map_app, printed_times.
  destruct (summary_records_cases args net) as [[_ E]|[_ E]]; rewrite E;
    simpl; apply app_nil_r.
Qed.

End Total.

(** X6: [total_time] ends as the sum of the response times [send_ping]
    returned, added from 0 in the order of the attempts; these are the
    times the "Response time" records print, in this order; and when there
    is at least one, the average the run reports is that sum divided by
    their number. *)
Theorem average_of_response_times (args : Namespace) (net : Z -> attempt) :
  total_time (final_stats args net) = running_sum (response_times args net)
  /\ flat_map printed_time (records (main args net)) = response_times args net
  /\ successes args net = Z.of_nat (List.length (response_times args net))
  /\ (response_times args net <> [] ->
      reports_average (records (main args net))
        (running_sum (response_times args net)
         / PyNum.of_int (Z.of_nat (List.length (response_times args net))))%float).
Proof.
  split; [apply total_time_running_sum | split; [apply main_printed_times | split ]].
  - apply length_response_times.
  - intros N.
    pose proof (length_response_times args net) as L.
    assert (P : 0 < successes args net).
    { rewrite L. destruct (response_times args net); [contradiction | simpl; lia]. }
    unfold reports_average. rewrite main_eq. unfold records. simpl.
    right. apply in_or_app. right.
    destruct (summary_records_cases args net) as [[_ E]|[Z0 _]]; [ | lia ].
    rewrite E, <- L, total_time_running_sum. simpl. auto.
Qed.

Lemma average_of_response_times_witness :
  response_times (session 4) mixed = [10; 20]%float
  /\ reports_average (records (main (session 4) mixed))
       (running_sum [10; 20] / PyNum.of_int 2)%float.
Proof.
  destruct (average_of_response_times (session 4) mixed) as [_ [_ [_ A]]].
  split; [vm_compute; reflexivity | ].
  apply A. vm_compute. discriminate.
Defined.

(** ** Longer and shorter sessions *)

Lemma range_succ (n : Z) : 0 <= n -> range (n + 1) = range n ++ [n].
Proof.
  intros H. unfold range.
  replace (Z.to_nat (n + 1)) with (S (Z.to_nat n)) by lia.
  rewrite seq_S, map_app. simpl. now rewrite Z2Nat.id.
Qed.

Lemma for_each_ext_in (l : list Z) (f g : Z -> stats -> M stats) (s : stats) :
  (forall i s', In i l -> f i s' = g i s') ->
  for_each l f s = for_each l g s.
Proof.
  revert s. induction l as [|i l IH]; intros s H; simpl.
  - reflexivity.
  - rewrite (H i s (or_introl eq_refl)). unfold bind.
    destruct (g i s) as [l1 [e|s1]]; [reflexivity | ].
    rewrite IH; [reflexivity | ]. intros j s' Hj. apply H. now right.
Qed.

(** X7: a session of [n + 1] probes is the session of [n] probes followed
    by the iteration of index [n], entered with the accumulators the
    shorter session left: its records are those of the shorter session and
    then those of attempt [n + 1]. *)
Theorem one_more_probe (args : Namespace) (net : Z -> attempt) (n : Z) :
  0 <= n ->
  probe_loop (with_count args (n + 1)) net
  = (s <- probe_loop (with_count args n) net ;; iteration args net n s)
  /\ records (probe_loop (with_count args (n + 1)) net)
     = records (probe_loop (with_count args n) net)
       ++ attempt_records (host args) (net n) n.
Proof.
  intros H.
  assert (E : forall k, probe_loop (with_count args k) net
                        = (flat_map (iteration_records args net) (range k),
                           inr (fold_left (step args net) (range k) initial))).
  { intros k. exact (for_each_eq args net (range k) initial). }
  rewrite !E, range_succ by exact H.
  rewrite flat_map_app, fold_left_app. cbn [flat_map fold_left].
  rewrite app_nil_r. split.
  - unfold bind. rewrite iteration_eq. reflexivity.
  - unfold records. cbn [fst]. now rewrite iteration_attempt_records.
Qed.

Lemma one_more_probe_witness :
  records (probe_loop (session 2) mixed)
  = records (probe_loop (session 1) mixed)
    ++ [info (Sending 2 example_host);
        {| levelname := WARNING; msg := TimedOut example_host |};
        info (NoResponse 2)].
Proof.
  refine (proj2 (one_more_probe (session 1) mixed 1 _)). lia.
Defined.

(** X8: a run consults the network for the attempts [0, ..., count - 1]
    and for nothing else: two networks that do the same at these attempts
    give the same run. *)
Theorem only_count_probes (args : Namespace) (net net' : Z -> attempt) :
  (forall i, 0 <= i < count args -> net i = net' i) ->
  main args net = main args net'.
Proof.
  intros H. unfold main, probe_loop.
  rewrite (for_each_ext_in _ (iteration args net) (iteration args net'));
    [reflexivity | ].
  intros i s Hi. apply range_In in Hi.
  unfold iteration. now rewrite (H i Hi).
Qed.

Lemma only_count_probes_witness :
  main (session 2) mixed = main (session 2) (script [replied 0 ten_ms; timed_out]).
Proof.
  apply only_count_probes. intros i Hi. simpl in Hi.
  assert (D : i = 0 \/ i = 1) by lia.
  destruct D as [-> | ->]; reflexivity.
Defined.

(** ** More of binary64: nan and division *)

(** *** Differences and products of finite floats *)

Lemma SFeqb_refl (x : spec_float) : SFeqb x x = negb (sf_is_nan x).
Proof.
  destruct x as [s|s| |s m e]; try destruct s; try reflexivity;
    unfold SFeqb, SFcompare; rewrite Z.compare_refl;
    change (Pos.compare_cont Eq m m) with (Pos.compare m m);
    rewrite Pos.compare_refl; reflexivity.
Qed.

Lemma is_nan_spec (x : float) : PrimFloat.is_nan x = sf_is_nan (Prim2SF x).
Proof.
  unfold PrimFloat.is_nan. rewrite eqb_spec, SFeqb_refl. apply negb_involutive.
Qed.

Lemma is_finite_spec (x : float) : PrimFloat.is_finite x = sf_finite (Prim2SF x).
Proof.
  unfold PrimFloat.is_finite, PrimFloat.is_infinity.
  rewrite is_nan_spec, eqb_spec, abs_spec.
  change (Prim2SF infinity) with (S754_infinity false).
  destruct (Prim2SF x) as [s|s| |s m e]; reflexivity.
Qed.

(** Rounding a mantissa that is not negative never gives nan. *)
Lemma binary_round_aux_not_nan (sx : bool) (mx ex : Z) (lx : location) :
  0 <= mx -> sf_is_nan (binary_round_aux prec emax sx mx ex lx) = false.
Proof.
  intros H. unfold binary_round_aux.
  pose proof (shr_fexp_m_nonneg mx ex lx H) as H1.
  destruct (shr_fexp prec emax mx ex lx) as [mrs' e']. simpl in H1.
  pose proof (shr_fexp_m_nonneg _ e' loc_Exact
                (round_nearest_even_nonneg _ (loc_of_shr_record mrs') H1)) as H2.
  destruct (shr_fexp prec emax _ e' loc_Exact) as [mrs'' e'']. simpl in H2.
  destruct (shr_m mrs'') as [|p|p]; try reflexivity.
  - destruct (e'' <=? emax - prec); reflexivity.
  - lia.
Qed.

Lemma binary_normalize_not_nan (m e : Z) (szero : bool) :
  sf_is_nan (binary_normalize prec emax m e szero) = false.
Proof.
  destruct m as [|p|p]; simpl; try reflexivity;
    unfold binary_round; destruct (shl_align _ _ _) as [mz ez];
    apply binary_round_aux_not_nan; lia.
Qed.

Lemma SFsub_finite_not_nan (x y : spec_float) :
  sf_finite x = true -> sf_finite y = true -> sf_is_nan (SF64sub x y) = false.
Proof.
  destruct x as [sx|sx| |sx mx ex], y as [sy|sy| |sy my ey];
    simpl sf_finite; intros Hx Hy; try discriminate;
    try (destruct sx, sy; reflexivity); try reflexivity.
  apply binary_normalize_not_nan.
Qed.

Lemma SFmul_1000_not_nan (x : spec_float) :
  sf_is_nan x = false ->
  sf_is_nan (SF64mul x (S754_finite false 8796093022208000 (-43))) = false.
Proof.
  destruct x as [sx|sx| |sx mx ex]; intros H; try discriminate H; try reflexivity.
  apply binary_round_aux_not_nan. lia.
Qed.

Lemma response_time_not_nan (a b : float) :
  PrimFloat.is_finite a = true -> PrimFloat.is_finite b = true ->
  PrimFloat.is_nan ((b - a) * 1000) = false.
Proof.
  rewrite !is_finite_spec, is_nan_spec, mul_spec, sub_spec. intros Ha Hb.
  change (Prim2SF 1000) with (S754_finite false 8796093022208000 (-43)).
  apply SFmul_1000_not_nan. now apply SFsub_finite_not_nan.
Qed.

(** *** Division by the number of successes *)

Lemma of_int_spec (n : Z) :
  0 <= n < 2 ^ 63 ->
  Prim2SF (PyNum.of_int n) = binary_normalize prec emax n 0 false.
Proof.
  intros H. unfold PyNum.of_int.
  pose proof (of_uint63_spec (Uint63.of_Z n)) as S.
  rewrite Uint63.of_Z_spec, Z.mod_small in S by exact H.
  rewrite <- S, SF2Prim_Prim2SF. reflexivity.
Qed.

Lemma iter_xO (p d : positive) : Zpos (Pos.iter xO p d) = Zpos p * 2 ^ Zpos d.
Proof.
  induction d as [|d IH] using Pos.peano_ind.
  - simpl. lia.
  - rewrite Pos.iter_succ, Pos2Z.inj_xO, IH, Pos2Z.inj_succ, Z.pow_succ_r by lia.
    lia.
Qed.

Lemma digits2_pos_gt (p : positive) : Zpos p < 2 ^ Zpos (digits2_pos p).
Proof.
  rewrite digits2_pos_size.
  pose proof (Pos.size_gt p) as H.
  apply Pos2Z.pos_lt_pos in H. now rewrite Pos2Z.inj_pow in H.
Qed.

Lemma Zdigits2_le (m k : Z) : 0 < m < 2 ^ k -> Zdigits2 m <= k.
Proof.
  intros [H0 H]. destruct m as [|p|p]; try lia. simpl.
  pose proof (digits2_pos_le p) as L.
  destruct (Z_le_gt_dec (Zpos (digits2_pos p)) k) as [D|D]; [exact D | exfalso].
  assert (2 ^ k <= 2 ^ (Zpos (digits2_pos p) - 1)).
  { apply Z.pow_le_mono_r; lia. }
  lia.
Qed.

Lemma shr_m_le (mrs : shr_record) (e n : Z) :
  0 <= shr_m mrs -> shr_m (fst (shr mrs e n)) <= shr_m mrs.
Proof.
  intros H. destruct n as [|p|p]; simpl; try lia.
  destruct (iter_shr_1_m p mrs H) as [_ E]. rewrite E.
  assert (P : 0 < 2 ^ Zpos p) by (apply Z.pow_pos_nonneg; lia).
  apply Z.div_le_upper_bound; nia.
Qed.

Lemma shr_fexp_m_le (m e : Z) (l : location) :
  0 <= m -> shr_m (fst (shr_fexp prec emax m e l)) <= m.
Proof.
  intros H. unfold shr_fexp.
  pose proof (shr_m_le (shr_record_of_loc m l) e
                (fexp prec emax (Zdigits2 m + e) - e)) as L.
  rewrite shr_record_of_loc_m in L. auto.
Qed.

Lemma shr_fexp_exp (m e : Z) (l : location) :
  snd (shr_fexp prec emax m e l) = Z.max e (fexp prec emax (Zdigits2 m + e)).
Proof.
  unfold shr_fexp, shr.
  destruct (fexp prec emax (Zdigits2 m + e) - e) as [|n|n] eqn:N; simpl; lia.
Qed.

Lemma round_nearest_even_le (m : Z) (l : location) : round_nearest_even m l <= m + 1.
Proof. destruct l as [|[]]; simpl; try destruct (Z.even m); lia. Qed.

(** Rounding under a sign a positive mantissa below [2^64] at an exponent
    in [-52, 0] gives a finite float of that sign, not a zero. *)
Lemma binary_round_aux_small (sx : bool) (mx ex : Z) (lx : location) :
  0 < mx < 2 ^ 64 -> -52 <= ex <= 0 ->
  exists m e, binary_round_aux prec emax sx mx ex lx = S754_finite sx m e.
Proof.
  intros [H0 H] He. unfold binary_round_aux.
  destruct (shr_fexp_m_pos mx ex lx H0) as [P1 _].
  { unfold SpecFloat.emin, prec, emax. lia. }
  pose proof (shr_fexp_m_le mx ex lx (Z.lt_le_incl _ _ H0)) as L1.
  pose proof (shr_fexp_exp mx ex lx) as E1.
  pose proof (Zdigits2_le mx 64 (conj H0 H)) as D1.
  destruct (shr_fexp prec emax mx ex lx) as [mrs' e']. simpl in P1, L1, E1.
  pose proof (round_nearest_even_ge (shr_m mrs') (loc_of_shr_record mrs')) as R1.
  pose proof (round_nearest_even_le (shr_m mrs') (loc_of_shr_record mrs')) as R2.
  set (m1 := round_nearest_even (shr_m mrs') (loc_of_shr_record mrs')) in *.
  assert (B1 : -52 <= e' <= 11).
  { subst e'. unfold fexp, SpecFloat.emin, prec, emax. lia. }
  assert (M1 : 0 < m1 < 2 ^ 65).
  { split; [lia | ]. change (2 ^ 65) with (2 * 2 ^ 64). lia. }
  destruct (shr_fexp_m_pos m1 e' loc_Exact (proj1 M1)) as [P2 _].
  { unfold SpecFloat.emin, prec, emax. lia. }
  pose proof (shr_fexp_exp m1 e' loc_Exact) as E2.
  pose proof (Zdigits2_le m1 65 M1) as D2.
  destruct (shr_fexp prec emax m1 e' loc_Exact) as [mrs'' e'']. simpl in P2, E2.
  destruct (shr_m mrs'') as [|p|p]; try lia.
  assert (B2 : e'' <= emax - prec).
  { subst e''. unfold fexp, SpecFloat.emin, prec, emax. lia. }
  apply Z.leb_le in B2. rewrite B2. eauto.
Qed.

Lemma binary_round_small (sx : bool) (p : positive) :
  Zpos p < 2 ^ 63 ->
  exists m e, binary_round prec emax sx p 0 = S754_finite sx m e.
Proof.
  intros H. unfold binary_round.
  pose proof (digits2_pos_gt p) as G.
  pose proof (Zdigits2_le (Zpos p) 63) as D. simpl in D.
  specialize (D (conj (Pos2Z.is_pos p) H)).
  set (d := Zpos (digits2_pos p)) in *.
  assert (Hd : 0 < d) by (unfold d; lia).
  replace (fexp prec emax (d + 0)) with (d - 53)
    by (unfold fexp, SpecFloat.emin, prec, emax; lia).
  unfold shl_align.
  destruct (d - 53 - 0) as [|k|k] eqn:K.
  - apply binary_round_aux_small; [ | lia].
    split; [lia | ]. apply Z.lt_trans with (2 ^ 63); [exact H | reflexivity].
  - apply binary_round_aux_small; [ | lia].
    split; [lia | ]. apply Z.lt_trans with (2 ^ 63); [exact H | reflexivity].
  - apply binary_round_aux_small; [ | lia].
    rewrite iter_xO. split; [lia | ].
    assert (Zpos k = 53 - d) by lia.
    apply Z.lt_trans with (2 ^ 53); [ | reflexivity].
    replace 53 with (d + Zpos k) by lia.
    rewrite Z.pow_add_r by lia.
    assert (0 < 2 ^ Zpos k) by (apply Z.pow_pos_nonneg; lia). nia.
Qed.

Lemma SFdiv_nonneg (x : spec_float) (m : positive) (e : Z) :
  sf_nonneg x = true ->
  sf_nonneg (SF64div x (S754_finite false m e)) = true.
Proof.
  destruct x as [sx|sx| |sx mx ex]; try destruct sx; simpl sf_nonneg;
    intros Hx; try discriminate; try reflexivity.
  unfold SF64div, SFdiv, SFdiv_core_binary. simpl xorb.
  set (m' := match _ - _ - _ with 0 => Zpos mx | Zpos _ => _ | Zneg _ => 0 end).
  assert (Hm : 0 <= m').
  { unfold m'. destruct (_ - _ - _); try lia. apply Z.shiftl_nonneg. lia. }
  pose proof (Z.div_pos m' (Zpos m) Hm (Pos2Z.is_pos m)) as Q.
  unfold Z.div in Q.
  destruct (Z.div_eucl m' (Zpos m)) as [q r].
  apply binary_round_aux_nonneg. exact Q.
Qed.

(** [x / n >= 0] for a float [x >= 0] and an int [0 < n < 2^63]. *)
Lemma nonneg_div_int (x : float) (n : Z) :
  0 < n < 2 ^ 63 -> PyNum.nonneg x -> PyNum.nonneg (x / PyNum.of_int n).
Proof.
  intros H. rewrite !nonneg_spec, div_spec, of_int_spec by lia. intros Hx.
  destruct n as [|p|p]; try lia. simpl binary_normalize.
  destruct (binary_round_small false p) as [m [e E]]; [lia | ].
  rewrite E. now apply SFdiv_nonneg.
Qed.

(** ** The response time and the average as numbers *)

(** X9: when the two readings of the clock are finite floats (as
    [time.time()] returns them), the response time a successful probe
    returns is never nan. *)
Theorem response_time_is_not_nan (h : string) (t : Z) (w : attempt) (r : float) :
  classify (send_ping h t w) = Some (Success r) ->
  PrimFloat.is_finite (time_before_send w) = true ->
  PrimFloat.is_finite (time_after_recv w) = true ->
  PrimFloat.is_nan r = false.
Proof.
  intros H Ha Hb. apply classify_success in H.
  assert (O : outcome (send_ping h t w) = inr (Some r)) by (rewrite H; reflexivity).
  destruct (returned_success h t w r O) as [_ E].
  rewrite E. unfold elapsed. now apply response_time_not_nan.
Qed.

Lemma response_time_is_not_nan_witness : PrimFloat.is_nan (-1000) = false.
Proof.
  apply (response_time_is_not_nan example_host 1 (replied 2 1) (-1000));
    vm_compute; reflexivity.
Defined.

Lemma summary_record_in_summary (args : Namespace) (net : Z -> attempt)
    (r : LogRecord) :
  In r (records (main args net)) -> is_summary r = true ->
  In r (summary_records args net).
Proof.
  intros H S. rewrite main_eq in H. unfold records in H. simpl in H.
  destruct H as [H|H]; [subst r; discriminate S | ].
  apply in_app_or in H. destruct H as [H|H]; [exfalso | exact H].
  apply in_flat_map in H. destruct H as [i [_ H]].
  rewrite iteration_attempt_records in H. unfold attempt_records in H.
  destruct (first_raised (net i)) as [e|]; simpl in H.
  - destruct H as [H|[H|[H|[]]]]; subst r; try discriminate S.
    destruct e; discriminate S.
  - destruct H as [H|[H|[]]]; subst r; discriminate S.
Qed.

(** X10: in a session of fewer than [2^63] probes whose successful probes
    all returned a response time [>= 0], the average the run reports is
    [>= 0] (in particular it is not nan). *)
Theorem average_not_negative (args : Namespace) (net : Z -> attempt)
    (average_time : float) :
  count args < 2 ^ 63 ->
  (forall i r, 0 <= i < count args -> probe args net i = Some (Success r) ->
     PyNum.nonneg r) ->
  reports_average (records (main args net)) average_time ->
  PyNum.nonneg average_time.
Proof.
  intros C H R. unfold reports_average in R.
  apply summary_record_in_summary in R; [ | reflexivity ].
  pose proof (successes_bounds args net) as B.
  destruct (summary_records_cases args net) as [[P E]|[_ E]]; rewrite E in R;
    simpl in R.
  - destruct R as [R|[R|[R|[]]]]; try discriminate R.
    inversion R. apply nonneg_div_int; [lia | ].
    rewrite final_stats_eq. apply fold_total_nonneg; [apply nonneg_zero | ].
    intros i r Hi. apply H. now apply range_In in Hi.
  - destruct R as [R|[]]. discriminate R.
Qed.

Lemma average_not_negative_witness : PyNum.nonneg 15.
Proof.
  apply (average_not_negative (session 4) mixed 15).
  - reflexivity.
  - intros i r Hi. simpl in Hi.
    assert (D : i = 0 \/ i = 1 \/ i = 2 \/ i = 3) by lia.
    destruct D as [-> | [-> | [-> | ->]]]; vm_compute; intros E; inversion E;
      reflexivity.
  - vm_compute. do 13 right. left. reflexivity.
Defined.

(** ** What a probe logs *)

(** X11: [send_ping] logs nothing exactly when it returns a response time,
    which is when no call of the attempt raised; otherwise it returns
    [None] and logs exactly one record, a WARNING when the exception is a
    [socket.timeout] and an ERROR for any other one.  Either way what it
    did is one of the outcomes of the specification. *)
Theorem send_ping_contract (h : string) (t : Z) (w : attempt) :
  (records (send_ping h t w) = [] <-> first_raised w = None)
  /\ ((exists r, outcome (send_ping h t w) = inr (Some r)) <-> first_raised w = None)
  /\ (forall e, first_raised w = Some e ->
        outcome (send_ping h t w) = inr None
        /\ exists rec, records (send_ping h t w) = [rec]
           /\ (levelname rec = WARNING <-> exists s, e = socket_timeout s)
           /\ (levelname rec = ERROR <-> forall s, e <> socket_timeout s))
  /\ (exists o, classify (send_ping h t w) = Some o
        /\ (is_failure o = false <-> first_raised w = None)).
Proof.
  destruct (send_ping_cases h t w) as [[N E]|[e [N E]]]; rewrite E, N.
  - split; [split; reflexivity | split; [ | split ]].
    + split; [reflexivity | intros _; simpl; eauto].
    + intros e H. discriminate H.
    + exists (Success (elapsed w * 1000)). repeat split; reflexivity.
  - split; [split; discriminate | split; [ | split ]].
    + split; [intros [r H]; discriminate H | discriminate].
    + intros e' H. inversion H; subst e'. split; [reflexivity | ].
      exists (failure_record h e). split; [reflexivity | ].
      destruct e; simpl; split; split;
        try discriminate; try reflexivity; eauto;
        try (intros [s H']; discriminate H');
        try (intros H'; exfalso; eapply H'; reflexivity).
    + exists (failure_kind e). rewrite classify_failure_record.
      split; [reflexivity | ].
      destruct e; simpl; split; discriminate.
Qed.
